(** * Zakat Management System: the backend handlers of [backend/main.py]

    A shallow embedding of the FastAPI handlers (registration, login and the
    zakat entry CRUD and statistics endpoints) over an explicit model of the
    two MongoDB collections, and the properties of the handlers.

    Conventions.
    - A Python [float] is an IEEE-754 binary64 number: Rocq's primitive
      [float], with its own rounding multiplication and addition. The builtin
      [sum] depends on the interpreter (plain additions before CPython 3.12,
      compensated from 3.12 on): the interpreter is a parameter.
    - A [datetime] is an instant in microseconds, the resolution of Python.
      The store keeps a datetime to the millisecond (BSON): what a handler
      reads back is the instant cut to the millisecond.
    - A handler is a computation in the monad [M]: it threads the store and
      either returns a value or raises an [HTTPException]; writes made before
      a raise stay in the store, as in the source.
    - What a handler obtains from its environment (the clock, the ObjectId the
      driver generates for an insert, the salt of the password hash) is an
      explicit argument.
    - [auth.py] is not part of the development: its functions are the
      fields of the class [AuthModule], over which the handlers are
      generic. *)

From Stdlib Require Import ZArith String Ascii List Bool Lia.
From Stdlib Require Import Floats.PrimFloat.
From Stdlib Require Import Sorting.Permutation Sorting.Sorted.
From stdpp Require Import gmap strings list fin_maps.

Import ListNotations.
Local Open Scope string_scope.
Local Open Scope Z_scope.

#[local] Set Warnings "-inexact-float".

(** ** Values *)

Definition datetime := Z.

(** A datetime as the store keeps it: BSON holds the milliseconds since the
    epoch, the driver cutting the microseconds below the millisecond. *)
Definition bson_datetime (d : datetime) : datetime := 1000 * (d / 1000).

(** A total kept by [total += x], from the integer [0]: plain additions
    from left to right, the first one converting the [0] to the float [0.0].
    This is how the loop of the statistics adds up a category. *)
Definition running_sum (xs : list float) : float :=
  fold_left PrimFloat.add xs 0%float.

(** One step of the compensated summation (Neumaier) of the builtin [sum] of
    CPython 3.12 and later, on the pair of the running total and the
    compensation. *)
Definition neumaier_step (st : float * float) (x : float) : float * float :=
  let (f_result, c) := st in
  let t := (f_result + x)%float in
  let c' :=
    if PrimFloat.leb (PrimFloat.abs x) (PrimFloat.abs f_result)
    then (c + ((f_result - t) + x))%float
    else (c + ((x - t) + f_result))%float in
  (t, c').

(** [sum(xs)] on floats from CPython 3.12 on. The start value is the integer
    [0]; the first float is added to it plainly, which makes the total a
    float, and the others are added with compensation; the compensation is
    added at the end when it is neither zero nor infinite nor a NaN. *)
Definition compensated_sum (xs : list float) : float :=
  match xs with
  | [] => 0%float
  | x1 :: rest =>
      let (f_result, c) := fold_left neumaier_step rest ((0 + x1)%float, 0%float) in
      if negb (PrimFloat.eqb c 0%float) && PrimFloat.is_finite c
      then (f_result + c)%float
      else f_result
  end.

(** The summation of the builtin [sum] on floats. *)
Inductive SumAlgorithm : Type :=
| PlainSum        (* CPython up to 3.11 *)
| CompensatedSum. (* CPython 3.12 and later *)

(** The interpreter that runs the service: the repository pins none. *)
Class Interpreter : Type := { float_sum_algorithm : SumAlgorithm }.

(** [sum(xs)] of Python on a list of floats. On no element at all Python
    returns the integer [0], which is the float zero here. *)
Definition py_sum {python : Interpreter} (xs : list float) : float :=
  match float_sum_algorithm with
  | PlainSum => running_sum xs
  | CompensatedSum => compensated_sum xs
  end.

(** *** [bson.ObjectId]

    [ObjectId(s)] on a string raises [InvalidId] unless the string has 24
    characters and [bytes.fromhex] accepts it; the bytes it gives are the
    id. [bytes.fromhex] reads pairs of hexadecimal digits and skips ASCII
    whitespace before a pair and at the end, so that a string of 24
    characters with whitespace in it gives an id of less than 12 bytes.
    [str] of an ObjectId is the lower-case hexadecimal digits of its bytes,
    and an ObjectId is kept as that string. *)

Inductive ObjectId_t : Type := Oid (hex : string).

Definition str (o : ObjectId_t) : string := let (h) := o in h.

Definition is_hexdigit (c : ascii) : bool :=
  let n := nat_of_ascii c in
  (Nat.leb 48 n && Nat.leb n 57) || (Nat.leb 97 n && Nat.leb n 102)
  || (Nat.leb 65 n && Nat.leb n 70).

Definition hex_lower (c : ascii) : ascii :=
  let n := nat_of_ascii c in
  if Nat.leb 65 n && Nat.leb n 70 then ascii_of_nat (n + 32) else c.

(** The six characters that [bytes.fromhex] skips: tab, line feed,
    vertical tab, form feed, carriage return and space. *)
Definition is_space (c : ascii) : bool :=
  let n := nat_of_ascii c in
  (Nat.leb 9 n && Nat.leb n 13) || Nat.eqb n 32.

(** [bytes.fromhex(s)], its result in lower-case hexadecimal digits; [None]
    is its [ValueError]. *)
Fixpoint fromhex (s : string) : option string :=
  match s with
  | EmptyString => Some EmptyString
  | String c s' =>
      if is_space c then fromhex s'
      else if is_hexdigit c then
        match s' with
        | EmptyString => None
        | String c' s'' =>
            if is_hexdigit c' then
              match fromhex s'' with
              | Some h => Some (String (hex_lower c) (String (hex_lower c') h))
              | None => None
              end
            else None
        end
      else None
  end.

Definition ObjectId (s : string) : option ObjectId_t :=
  if Nat.eqb (String.length s) 24
  then match fromhex s with
       | Some h => Some (Oid h)
       | None => None
       end
  else None.

Definition oid_eqb (a b : ObjectId_t) : bool := String.eqb (str a) (str b).

(** ** Request and response models ([backend/models.py]) *)

Module UserCreate.
Record t : Type := Build
  { username : string; email : string; password : string; full_name : string }.
End UserCreate.

Module UserResponse.
Record t : Type := Build
  { id : string; username : string; email : string; full_name : string;
    created_at : datetime }.
End UserResponse.

Module OAuth2PasswordRequestForm.
Record t : Type := Build { username : string; password : string }.
End OAuth2PasswordRequestForm.

Module Token.
Record t : Type := Build { access_token : string; token_type : string }.
End Token.

Module ZakatCreate.
Record t : Type := Build
  { amount : float; category : string; description : option string;
    date : option datetime }.

(** The body of a request before validation: any field may be missing. *)
Record body : Type := Body
  { body_amount : option float; body_category : option string;
    body_description : option string; body_date : option datetime }.

(** Validation against the model: [amount] and [category] have no default
    and are required, [description] and [date] default to [None]; the model
    declares no constraint on the value of a field. *)
Definition validate (b : body) : option t :=
  match body_amount b, body_category b with
  | Some a, Some c => Some (Build a c (body_description b) (body_date b))
  | _, _ => None
  end.
End ZakatCreate.

Module ZakatUpdate.
Record t : Type := Build
  { amount : option float; category : option string;
    description : option string; date : option datetime }.

(** The empty partial body. *)
Definition empty : t := Build None None None None.
End ZakatUpdate.

Module ZakatResponse.
Record t : Type := Build
  { id : string; amount : float; category : string;
    description : option string; date : datetime; zakat_amount : float;
    user_id : string }.
End ZakatResponse.

(** ** Documents of the two collections *)

Module UserDoc.
Record t : Type := Build
  { _id : ObjectId_t; username : string; email : string; password : string;
    full_name : string; created_at : datetime }.

(** The [UserResponse] built from the keys of the document after
    [user["id"] = str(user["_id"])]: the fields of the response model are
    picked, the other keys are dropped. *)
Definition response (u : t) : UserResponse.t :=
  UserResponse.Build (str (_id u)) (username u) (email u) (full_name u)
    (created_at u).
End UserDoc.

Module ZakatDoc.
Record t : Type := Build
  { _id : ObjectId_t; amount : float; category : string;
    description : option string; date : datetime; zakat_amount : float;
    user_id : string; created_at : datetime }.

(** The [ZakatResponse] built from the keys of the document after
    [entry["id"] = str(entry["_id"])]. *)
Definition response (e : t) : ZakatResponse.t :=
  ZakatResponse.Build (str (_id e)) (amount e) (category e) (description e)
    (date e) (zakat_amount e) (user_id e).
End ZakatDoc.

(** The documents as the store keeps them. *)
Definition bson_user (u : UserDoc.t) : UserDoc.t :=
  UserDoc.Build (UserDoc._id u) (UserDoc.username u) (UserDoc.email u)
    (UserDoc.password u) (UserDoc.full_name u)
    (bson_datetime (UserDoc.created_at u)).

Definition bson_entry (e : ZakatDoc.t) : ZakatDoc.t :=
  ZakatDoc.Build (ZakatDoc._id e) (ZakatDoc.amount e) (ZakatDoc.category e)
    (ZakatDoc.description e) (bson_datetime (ZakatDoc.date e))
    (ZakatDoc.zakat_amount e) (ZakatDoc.user_id e)
    (bson_datetime (ZakatDoc.created_at e)).

(** ** The store *)

(** The collection methods the handlers call, recorded as they are called. *)
Inductive StoreOp : Type :=
| Users_find_one | Users_insert_one
| Zakat_insert_one | Zakat_find | Zakat_find_one | Zakat_update_one
| Zakat_delete_one.

Definition on_zakat_collection (op : StoreOp) : bool :=
  match op with
  | Users_find_one | Users_insert_one => false
  | _ => true
  end.

Record World : Type := MkWorld
  { users_collection : list UserDoc.t;
    zakat_collection : list ZakatDoc.t;
    oplog : list StoreOp }.

Definition empty_world : World := MkWorld [] [] [].

(** *** Errors and the handler monad *)

Record HTTPException : Type := MkHTTPException
  { status_code : Z; detail : string; headers : list (string * string) }.

Definition HTTP_400_BAD_REQUEST : Z := 400.
Definition HTTP_401_UNAUTHORIZED : Z := 401.
Definition HTTP_404_NOT_FOUND : Z := 404.

Inductive Result (A : Type) : Type :=
| Ok (a : A)
| Raise (e : HTTPException).
Arguments Ok {A} a.
Arguments Raise {A} e.

Definition M (A : Type) : Type := World -> Result A * World.

Definition ret {A} (a : A) : M A := fun w => (Ok a, w).

Definition raise {A} (e : HTTPException) : M A := fun w => (Raise e, w).

Definition bind {A B} (m : M A) (k : A -> M B) : M B :=
  fun w =>
    match m w with
    | (Ok a, w') => k a w'
    | (Raise e, w') => (Raise e, w')
    end.

Notation "x <- m ;; k" := (bind m (fun x => k))
  (at level 100, m at next level, right associativity).

Definition record_op (op : StoreOp) (w : World) : World :=
  MkWorld (users_collection w) (zakat_collection w) (oplog w ++ [op]).

(** *** Query filters *)

Inductive UserCond : Type :=
| U_email (v : string)
| U_username (v : string).

Definition user_cond (u : UserDoc.t) (c : UserCond) : bool :=
  match c with
  | U_email v => String.eqb (UserDoc.email u) v
  | U_username v => String.eqb (UserDoc.username u) v
  end.

Definition user_matches (q : list UserCond) (u : UserDoc.t) : bool :=
  forallb (user_cond u) q.

Inductive ZakatCond : Type :=
| Z_id (v : ObjectId_t)
| Z_user_id (v : string).

Definition zakat_cond (e : ZakatDoc.t) (c : ZakatCond) : bool :=
  match c with
  | Z_id v => oid_eqb (ZakatDoc._id e) v
  | Z_user_id v => String.eqb (ZakatDoc.user_id e) v
  end.

Definition zakat_matches (q : list ZakatCond) (e : ZakatDoc.t) : bool :=
  forallb (zakat_cond e) q.

(** *** [$set] updates of an entry

    A date is stored to the millisecond. *)

Inductive SetField : Type :=
| Set_amount (v : float)
| Set_zakat_amount (v : float)
| Set_category (v : string)
| Set_description (v : string)
| Set_date (v : datetime).

Definition set_field (e : ZakatDoc.t) (s : SetField) : ZakatDoc.t :=
  let '(ZakatDoc.Build i a c d t z u ca) := e in
  match s with
  | Set_amount v => ZakatDoc.Build i v c d t z u ca
  | Set_zakat_amount v => ZakatDoc.Build i a c d t v u ca
  | Set_category v => ZakatDoc.Build i a v d t z u ca
  | Set_description v => ZakatDoc.Build i a c (Some v) t z u ca
  | Set_date v => ZakatDoc.Build i a c d (bson_datetime v) z u ca
  end.

Definition apply_set (update_data : list SetField) (e : ZakatDoc.t) : ZakatDoc.t :=
  fold_left set_field update_data e.

(** *** Collection primitives *)

(** The first document of the list that matches, updated by [f]. *)
Fixpoint update_first {A} (p : A -> bool) (f : A -> A) (l : list A) : list A :=
  match l with
  | [] => []
  | x :: l' => if p x then f x :: l' else x :: update_first p f l'
  end.

(** The list without its first matching document. *)
Fixpoint remove_first {A} (p : A -> bool) (l : list A) : list A :=
  match l with
  | [] => []
  | x :: l' => if p x then l' else x :: remove_first p l'
  end.

(** [sort("date", -1)]: an insertion sort, newest first, that keeps the
    store's order among entries of one date. *)
Fixpoint insert_desc (e : ZakatDoc.t) (l : list ZakatDoc.t) : list ZakatDoc.t :=
  match l with
  | [] => [e]
  | x :: l' =>
      if Z.leb (ZakatDoc.date x) (ZakatDoc.date e) then e :: x :: l'
      else x :: insert_desc e l'
  end.

Definition sort_date_desc (l : list ZakatDoc.t) : list ZakatDoc.t :=
  fold_right insert_desc [] l.

Definition users_find_one (q : list UserCond) : M (option UserDoc.t) :=
  fun w => (Ok (List.find (user_matches q) (users_collection w)),
            record_op Users_find_one w).

(** An insert stores the document as the store keeps it; the dictionary of
    the handler keeps its own values. *)
Definition users_insert_one (doc : UserDoc.t) : M ObjectId_t :=
  fun w => (Ok (UserDoc._id doc),
            record_op Users_insert_one
              (MkWorld (users_collection w ++ [bson_user doc])
                 (zakat_collection w) (oplog w))).

Definition zakat_insert_one (doc : ZakatDoc.t) : M ObjectId_t :=
  fun w => (Ok (ZakatDoc._id doc),
            record_op Zakat_insert_one
              (MkWorld (users_collection w)
                 (zakat_collection w ++ [bson_entry doc]) (oplog w))).

Definition zakat_find (q : list ZakatCond) : M (list ZakatDoc.t) :=
  fun w => (Ok (List.filter (zakat_matches q) (zakat_collection w)),
            record_op Zakat_find w).

Definition zakat_find_sort_date_desc (q : list ZakatCond) : M (list ZakatDoc.t) :=
  fun w => (Ok (sort_date_desc (List.filter (zakat_matches q) (zakat_collection w))),
            record_op Zakat_find w).

Definition zakat_find_one (q : list ZakatCond) : M (option ZakatDoc.t) :=
  fun w => (Ok (List.find (zakat_matches q) (zakat_collection w)),
            record_op Zakat_find_one w).

Definition zakat_update_one (q : list ZakatCond) (update_data : list SetField) : M unit :=
  fun w => (Ok tt,
            record_op Zakat_update_one
              (MkWorld (users_collection w)
                 (update_first (zakat_matches q) (apply_set update_data)
                    (zakat_collection w))
                 (oplog w))).

(** Returns [deleted_count]. *)
Definition zakat_delete_one (q : list ZakatCond) : M Z :=
  fun w => (Ok (if existsb (zakat_matches q) (zakat_collection w) then 1 else 0),
            record_op Zakat_delete_one
              (MkWorld (users_collection w)
                 (remove_first (zakat_matches q) (zakat_collection w))
                 (oplog w))).

(** ** The handlers ([backend/main.py]) *)

Definition user_not_found : HTTPException :=
  MkHTTPException HTTP_404_NOT_FOUND "User not found" [].

Definition zakat_entry_not_found : HTTPException :=
  MkHTTPException HTTP_404_NOT_FOUND "Zakat entry not found" [].

Definition invalid_zakat_id : HTTPException :=
  MkHTTPException HTTP_400_BAD_REQUEST "Invalid zakat ID" [].

Definition incorrect_email_or_password : HTTPException :=
  MkHTTPException HTTP_401_UNAUTHORIZED "Incorrect email or password"
    [("WWW-Authenticate", "Bearer")].

Module CategoryStats.
Record t : Type := Build
  { count : Z; total_amount : float; total_zakat : float }.
End CategoryStats.

Module Statistics.
Record t : Type := Build
  { total_amount : float; total_zakat : float; total_entries : Z;
    category_breakdown : gmap string CategoryStats.t }.
End Statistics.

(** The three [+=] of the loop of [get_zakat_statistics] on the record of
    a category. *)
Definition count_entry (entry : ZakatDoc.t) (s : CategoryStats.t) : CategoryStats.t :=
  CategoryStats.Build
    (CategoryStats.count s + 1)
    (CategoryStats.total_amount s + ZakatDoc.amount entry)%float
    (CategoryStats.total_zakat s + ZakatDoc.zakat_amount entry)%float.

Definition zero_stats : CategoryStats.t := CategoryStats.Build 0 0%float 0%float.

(** The body of the loop of [get_zakat_statistics]: the record of the
    category is created on its first sighting, then its three fields are
    incremented in place. *)
Definition category_stats_step (category_stats : gmap string CategoryStats.t)
    (entry : ZakatDoc.t) : gmap string CategoryStats.t :=
  let category := ZakatDoc.category entry in
  let category_stats :=
    match category_stats !! category with
    | None => <[category := zero_stats]> category_stats
    | Some _ => category_stats
    end in
  alter (count_entry entry) category category_stats.

(** The calculation of [get_zakat_statistics] on the entries it has read. *)
Definition calculate_statistics {python : Interpreter}
    (entries : list ZakatDoc.t) : Statistics.t :=
  let total_amount := py_sum (map ZakatDoc.amount entries) in
  let total_zakat := py_sum (map ZakatDoc.zakat_amount entries) in
  let total_entries := Z.of_nat (length entries) in
  let category_stats := fold_left category_stats_step entries ∅ in
  Statistics.Build total_amount total_zakat total_entries category_stats.

(** The [update_data] dictionary of [update_zakat_entry]. *)
Definition build_update_data (zakat : ZakatUpdate.t) : list SetField :=
  (match ZakatUpdate.amount zakat with
   | Some a => [Set_amount a; Set_zakat_amount (a * 0.025)%float]
   | None => []
   end)
  ++ (match ZakatUpdate.category zakat with
      | Some c => [Set_category c]
      | None => []
      end)
  ++ (match ZakatUpdate.description zakat with
      | Some d => [Set_description d]
      | None => []
      end)
  ++ (match ZakatUpdate.date zakat with
      | Some t => [Set_date t]
      | None => []
      end).

(** The functions and the constant imported from [auth.py]. The hash is
    salted: the salt drawn by a call is its first argument. The token is made
    for a subject and a time to live in minutes. *)
Class AuthModule : Type :=
  { get_password_hash : string -> string -> string;
    verify_password : string -> string -> bool;
    create_access_token : string -> Z -> string;
    ACCESS_TOKEN_EXPIRE_MINUTES : Z }.

Section Handlers.

Context {auth : AuthModule} {python : Interpreter}.

Definition register (utcnow : datetime) (inserted_id : ObjectId_t)
    (salt : string) (user : UserCreate.t) : M UserResponse.t :=
  existing_user <- users_find_one [U_email (UserCreate.email user)] ;;
  match existing_user with
  | Some _ =>
      raise (MkHTTPException HTTP_400_BAD_REQUEST "Email already registered" [])
  | None =>
      existing_username <- users_find_one [U_username (UserCreate.username user)] ;;
      match existing_username with
      | Some _ =>
          raise (MkHTTPException HTTP_400_BAD_REQUEST "Username already taken" [])
      | None =>
          let hashed_password := get_password_hash salt (UserCreate.password user) in
          let user_doc :=
            UserDoc.Build inserted_id (UserCreate.username user)
              (UserCreate.email user) hashed_password
              (UserCreate.full_name user) utcnow in
          result <- users_insert_one user_doc ;;
          ret (UserResponse.Build (str result) (UserDoc.username user_doc)
                 (UserDoc.email user_doc) (UserDoc.full_name user_doc)
                 (UserDoc.created_at user_doc))
      end
  end.

Definition login (form_data : OAuth2PasswordRequestForm.t) : M Token.t :=
  user <- users_find_one [U_email (OAuth2PasswordRequestForm.username form_data)] ;;
  match user with
  | None => raise incorrect_email_or_password
  | Some user =>
      if negb (verify_password (OAuth2PasswordRequestForm.password form_data)
                 (UserDoc.password user))
      then raise incorrect_email_or_password
      else
        let access_token_expires := ACCESS_TOKEN_EXPIRE_MINUTES in
        let access_token :=
          create_access_token (UserDoc.email user) access_token_expires in
        ret (Token.Build access_token "bearer")
  end.

Definition get_current_user (email : string) : M UserResponse.t :=
  user <- users_find_one [U_email email] ;;
  match user with
  | None => raise user_not_found
  | Some user => ret (UserDoc.response user)
  end.

(** [utcnow_date] and [utcnow_created] are the two readings of the clock,
    for the default date and for [created_at]. *)
Definition create_zakat_entry (utcnow_date utcnow_created : datetime)
    (inserted_id : ObjectId_t) (zakat : ZakatCreate.t) (email : string)
    : M ZakatResponse.t :=
  user <- users_find_one [U_email email] ;;
  match user with
  | None => raise user_not_found
  | Some user =>
      let zakat_amount := (ZakatCreate.amount zakat * 0.025)%float in
      let zakat_doc :=
        ZakatDoc.Build inserted_id
          (ZakatCreate.amount zakat)
          (ZakatCreate.category zakat)
          (ZakatCreate.description zakat)
          (match ZakatCreate.date zakat with
           | Some d => d
           | None => utcnow_date
           end)
          zakat_amount
          (str (UserDoc._id user))
          utcnow_created in
      result <- zakat_insert_one zakat_doc ;;
      ret (ZakatResponse.Build (str result) (ZakatDoc.amount zakat_doc)
             (ZakatDoc.category zakat_doc) (ZakatDoc.description zakat_doc)
             (ZakatDoc.date zakat_doc) (ZakatDoc.zakat_amount zakat_doc)
             (ZakatDoc.user_id zakat_doc))
  end.

Definition get_zakat_entries (email : string) : M (list ZakatResponse.t) :=
  user <- users_find_one [U_email email] ;;
  match user with
  | None => raise user_not_found
  | Some user =>
      entries <- zakat_find_sort_date_desc [Z_user_id (str (UserDoc._id user))] ;;
      let formatted_entries := map ZakatDoc.response entries in
      ret formatted_entries
  end.

(** In the [try] block the filter is built first, so that [ObjectId(zakat_id)]
    raises before the collection is called; its [InvalidId] is the exception
    the bare [except] turns into the 400. *)
Definition get_zakat_entry (zakat_id : string) (email : string)
    : M ZakatResponse.t :=
  user <- users_find_one [U_email email] ;;
  match user with
  | None => raise user_not_found
  | Some user =>
      match ObjectId zakat_id with
      | None => raise invalid_zakat_id
      | Some oid =>
          entry <- zakat_find_one [Z_id oid; Z_user_id (str (UserDoc._id user))] ;;
          match entry with
          | None => raise zakat_entry_not_found
          | Some entry => ret (ZakatDoc.response entry)
          end
      end
  end.

(** After the first lookup has succeeded [ObjectId(zakat_id)] cannot raise
    again; the second lookup is by [_id] alone and its result is used
    without a test, a missing document being the [TypeError] of
    subscripting [None] (a server error). *)
Definition update_zakat_entry (zakat_id : string) (zakat : ZakatUpdate.t)
    (email : string) : M ZakatResponse.t :=
  user <- users_find_one [U_email email] ;;
  match user with
  | None => raise user_not_found
  | Some user =>
      match ObjectId zakat_id with
      | None => raise invalid_zakat_id
      | Some oid =>
          existing_entry <-
            zakat_find_one [Z_id oid; Z_user_id (str (UserDoc._id user))] ;;
          match existing_entry with
          | None => raise zakat_entry_not_found
          | Some _ =>
              let update_data := build_update_data zakat in
              _ <- match update_data with
                   | [] => ret tt
                   | _ :: _ => zakat_update_one [Z_id oid] update_data
                   end ;;
              updated_entry <- zakat_find_one [Z_id oid] ;;
              match updated_entry with
              | None => raise (MkHTTPException 500 "Internal Server Error" [])
              | Some updated_entry => ret (ZakatDoc.response updated_entry)
              end
          end
      end
  end.

Definition delete_zakat_entry (zakat_id : string) (email : string) : M unit :=
  user <- users_find_one [U_email email] ;;
  match user with
  | None => raise user_not_found
  | Some user =>
      match ObjectId zakat_id with
      | None => raise invalid_zakat_id
      | Some oid =>
          deleted_count <-
            zakat_delete_one [Z_id oid; Z_user_id (str (UserDoc._id user))] ;;
          if Z.eqb deleted_count 0 then raise zakat_entry_not_found
          else ret tt
      end
  end.

Definition get_zakat_statistics (email : string) : M Statistics.t :=
  user <- users_find_one [U_email email] ;;
  match user with
  | None => raise user_not_found
  | Some user =>
      entries <- zakat_find [Z_user_id (str (UserDoc._id user))] ;;
      ret (calculate_statistics entries)
  end.

(** *** Sequences of requests

    A request carries the arguments of its handler, those read from the
    environment included. The service starts on the empty store and the
    store changes through the handlers only. *)

Inductive Request : Type :=
| Req_register (utcnow : datetime) (inserted_id : ObjectId_t) (salt : string)
    (user : UserCreate.t)
| Req_login (form_data : OAuth2PasswordRequestForm.t)
| Req_get_current_user (email : string)
| Req_create_zakat_entry (utcnow_date utcnow_created : datetime)
    (inserted_id : ObjectId_t) (zakat : ZakatCreate.t) (email : string)
| Req_get_zakat_entries (email : string)
| Req_get_zakat_entry (zakat_id : string) (email : string)
| Req_update_zakat_entry (zakat_id : string) (zakat : ZakatUpdate.t)
    (email : string)
| Req_delete_zakat_entry (zakat_id : string) (email : string)
| Req_get_zakat_statistics (email : string).

(** The store after a request has been served (whatever the response). *)
Definition step (r : Request) (w : World) : World :=
  match r with
  | Req_register utcnow inserted_id salt user =>
      snd (register utcnow inserted_id salt user w)
  | Req_login form_data => snd (login form_data w)
  | Req_get_current_user email => snd (get_current_user email w)
  | Req_create_zakat_entry d c inserted_id zakat email =>
      snd (create_zakat_entry d c inserted_id zakat email w)
  | Req_get_zakat_entries email => snd (get_zakat_entries email w)
  | Req_get_zakat_entry zakat_id email => snd (get_zakat_entry zakat_id email w)
  | Req_update_zakat_entry zakat_id zakat email =>
      snd (update_zakat_entry zakat_id zakat email w)
  | Req_delete_zakat_entry zakat_id email =>
      snd (delete_zakat_entry zakat_id email w)
  | Req_get_zakat_statistics email => snd (get_zakat_statistics email w)
  end.

Definition run (rs : list Request) (w : World) : World :=
  fold_left (fun w r => step r w) rs w.

(** The ObjectId generated for an insert is not in the collection yet. *)
Definition inserted_id_fresh (r : Request) (w : World) : Prop :=
  match r with
  | Req_register _ inserted_id _ _ =>
      ~ In inserted_id (map UserDoc._id (users_collection w))
  | Req_create_zakat_entry _ _ inserted_id _ _ =>
      ~ In inserted_id (map ZakatDoc._id (zakat_collection w))
  | _ => True
  end.

Inductive reachable : World -> Prop :=
| reachable_init : reachable empty_world
| reachable_step (w : World) (r : Request) :
    reachable w -> inserted_id_fresh r w -> reachable (step r w).

End Handlers.

(** ** Vocabulary of the properties *)

(** The user a resolved email stands for, if any. *)
Definition current_user (email : string) (w : World) : option UserDoc.t :=
  List.find (user_matches [U_email email]) (users_collection w).

(** The entry is owned by the user. *)
Definition owned_by (user : UserDoc.t) (e : ZakatDoc.t) : bool :=
  String.eqb (ZakatDoc.user_id e) (str (UserDoc._id user)).

Definition has_category (c : string) (e : ZakatDoc.t) : bool :=
  String.eqb (ZakatDoc.category e) c.

(** The count and the two sums of the entries that bear the label [c]. *)
Definition category_summary (c : string) (entries : list ZakatDoc.t)
    : CategoryStats.t :=
  let bearing := List.filter (has_category c) entries in
  CategoryStats.Build (Z.of_nat (length bearing))
    (running_sum (map ZakatDoc.amount bearing))
    (running_sum (map ZakatDoc.zakat_amount bearing)).

(** Newest date first: [b] may follow [a] in the listing. *)
Definition not_older (a b : ZakatDoc.t) : Prop :=
  ZakatDoc.date b <= ZakatDoc.date a.

Definition response_not_older (a b : ZakatResponse.t) : Prop :=
  ZakatResponse.date b <= ZakatResponse.date a.

(** The obligation of every stored entry is 0.025 times its amount. *)
Definition obligation_invariant (w : World) : Prop :=
  Forall (fun e => ZakatDoc.zakat_amount e = (ZakatDoc.amount e * 0.025)%float)
    (zakat_collection w).

(** No two entries of the collection share their [_id]. *)
Definition unique_entry_ids (w : World) : Prop :=
  List.NoDup (map ZakatDoc._id (zakat_collection w)).

(** The entry [e] after a partial update: a supplied field replaces the old
    value (a date as the store keeps it, to the millisecond), an unsupplied
    one keeps it, and the obligation follows a supplied amount. *)
Definition updated_entry (zakat : ZakatUpdate.t) (e : ZakatDoc.t) : ZakatDoc.t :=
  ZakatDoc.Build
    (ZakatDoc._id e)
    (match ZakatUpdate.amount zakat with Some a => a | None => ZakatDoc.amount e end)
    (match ZakatUpdate.category zakat with Some c => c | None => ZakatDoc.category e end)
    (match ZakatUpdate.description zakat with
     | Some d => Some d
     | None => ZakatDoc.description e
     end)
    (match ZakatUpdate.date zakat with
     | Some t => bson_datetime t
     | None => ZakatDoc.date e
     end)
    (match ZakatUpdate.amount zakat with
     | Some a => (a * 0.025)%float
     | None => ZakatDoc.zakat_amount e
     end)
    (ZakatDoc.user_id e)
    (ZakatDoc.created_at e).

Definition NotFound (e : HTTPException) : Prop :=
  status_code e = HTTP_404_NOT_FOUND.
Definition Unauthorized (e : HTTPException) : Prop :=
  status_code e = HTTP_401_UNAUTHORIZED.
Definition Conflict (e : HTTPException) : Prop :=
  status_code e = HTTP_400_BAD_REQUEST
  /\ (detail e = "Email already registered" \/ detail e = "Username already taken").

(** The handler fails on the missing user after the one lookup in the user
    collection: the store is as before and no method of the entry
    collection has been called. *)
Definition fails_user_not_found {A} (m : M A) (w : World) : Prop :=
  fst (m w) = Raise user_not_found
  /\ users_collection (snd (m w)) = users_collection w
  /\ zakat_collection (snd (m w)) = zakat_collection w
  /\ oplog (snd (m w)) = (oplog w ++ [Users_find_one])%list.

(** ** Sample data *)

Module Sample.

(** A toy [auth.py]. *)
Definition auth : AuthModule :=
  {| get_password_hash := fun salt password => password ++ "$" ++ salt;
     verify_password := fun password hashed => String.prefix (password ++ "$") hashed;
     create_access_token := fun sub minutes => "token:" ++ sub;
     ACCESS_TOKEN_EXPIRE_MINUTES := 30 |}.

(** The interpreter of the sample runs: a CPython from 3.12 on. *)
Definition python : Interpreter := {| float_sum_algorithm := CompensatedSum |}.

Definition amina_id : ObjectId_t := Oid "65a000000000000000000001".
Definition bilal_id : ObjectId_t := Oid "65a000000000000000000002".
Definition entry1_hex : string := "65b000000000000000000001".
Definition entry2_hex : string := "65b000000000000000000002".
Definition entry3_hex : string := "65b000000000000000000003".
Definition entry4_hex : string := "65b000000000000000000004".

Definition amina : UserCreate.t :=
  UserCreate.Build "amina" "amina@example.org" "s3cret" "Amina K.".
Definition bilal : UserCreate.t :=
  UserCreate.Build "bilal" "bilal@example.org" "pa55" "Bilal M.".

(** The times of the sample are in microseconds, most of them with digits
    below the millisecond. *)
Definition cash100 : ZakatCreate.t :=
  ZakatCreate.Build 100 "Cash" None (Some 30500).
Definition cash200 : ZakatCreate.t :=
  ZakatCreate.Build 200 "Cash" (Some "savings") (Some 10000).
Definition gold50 : ZakatCreate.t := ZakatCreate.Build 50 "Gold" None None.
Definition silver80 : ZakatCreate.t :=
  ZakatCreate.Build 80 "Silver" None (Some 25999).

(** Two users registered; the first one has recorded the three entries of
    the aggregator example, the second one an entry of their own. *)
Definition requests : list Request :=
  [ Req_register 1250 amina_id "salt1" amina;
    Req_register 2250 bilal_id "salt2" bilal;
    Req_create_zakat_entry 3400 3600 (Oid entry1_hex) cash100 "amina@example.org";
    Req_create_zakat_entry 4700 4750 (Oid entry2_hex) cash200 "amina@example.org";
    Req_create_zakat_entry 20123 21456 (Oid entry3_hex) gold50 "amina@example.org";
    Req_create_zakat_entry 40900 41001 (Oid entry4_hex) silver80 "bilal@example.org" ].

Definition world : World :=
  Eval vm_compute in @run auth python requests empty_world.

(** The documents of the first user and of their first entry, and of the
    second user and of their entry, as the store keeps them. *)
Definition amina_doc : UserDoc.t :=
  UserDoc.Build amina_id "amina" "amina@example.org" "s3cret$salt1" "Amina K."
    1000.
Definition bilal_doc : UserDoc.t :=
  UserDoc.Build bilal_id "bilal" "bilal@example.org" "pa55$salt2" "Bilal M."
    2000.
Definition entry1 : ZakatDoc.t :=
  ZakatDoc.Build (Oid entry1_hex) 100 "Cash" None 30000 2.5 (str amina_id) 3000.
Definition entry4 : ZakatDoc.t :=
  ZakatDoc.Build (Oid entry4_hex) 80 "Silver" None 25000 2 (str bilal_id) 41000.

(** A partial body with a new amount, a new description and a new date. *)
Definition revalue : ZakatUpdate.t :=
  ZakatUpdate.Build (Some 400%float) None (Some "revalued") (Some 77777).

(** A creation request with a negative amount. *)
Definition negative_body : ZakatCreate.body :=
  ZakatCreate.Body (Some (-100)%float) (Some "Cash") None None.


(** A third user, not registered in the sample store, and the record their
    registration returns. *)
Definition carol_id : ObjectId_t := Oid "65a000000000000000000003".
Definition carol : UserCreate.t :=
  UserCreate.Build "carol" "carol@example.org" "pw3" "Carol N.".
Definition carol_response : UserResponse.t :=
  UserResponse.Build "65a000000000000000000003" "carol" "carol@example.org"
    "Carol N." 60750.

(** A fifth entry, not in the sample store, and the response its creation by
    the first user returns. *)
Definition entry5_id : ObjectId_t := Oid "65b000000000000000000005".
Definition entry5_response : ZakatResponse.t :=
  ZakatResponse.Build "65b000000000000000000005" 80 "Silver" None 25999 2
    "65a000000000000000000001".


End Sample.

(** ** Serving a request *)

Definition error_of {A} (res : Result A) : option HTTPException :=
  match res with
  | Ok _ => None
  | Raise e => Some e
  end.

Section Service.

Context {auth : AuthModule} {python : Interpreter}.

(** The exception a request is answered with, if any, and the store after
    the request. *)
Definition serve (r : Request) (w : World) : option HTTPException * World :=
  match r with
  | Req_register utcnow inserted_id salt user =>
      let (res, w') := register utcnow inserted_id salt user w in (error_of res, w')
  | Req_login form_data =>
      let (res, w') := login form_data w in (error_of res, w')
  | Req_get_current_user email =>
      let (res, w') := get_current_user email w in (error_of res, w')
  | Req_create_zakat_entry d c inserted_id zakat email =>
      let (res, w') := create_zakat_entry d c inserted_id zakat email w in
      (error_of res, w')
  | Req_get_zakat_entries email =>
      let (res, w') := get_zakat_entries email w in (error_of res, w')
  | Req_get_zakat_entry zakat_id email =>
      let (res, w') := get_zakat_entry zakat_id email w in (error_of res, w')
  | Req_update_zakat_entry zakat_id zakat email =>
      let (res, w') := update_zakat_entry zakat_id zakat email w in
      (error_of res, w')
  | Req_delete_zakat_entry zakat_id email =>
      let (res, w') := delete_zakat_entry zakat_id email w in (error_of res, w')
  | Req_get_zakat_statistics email =>
      let (res, w') := get_zakat_statistics email w in (error_of res, w')
  end.

End Service.

(** The email the identity dependency hands to the handler of the request:
    registration and login take none. *)
Definition caller (r : Request) : option string :=
  match r with
  | Req_register _ _ _ _ | Req_login _ => None
  | Req_get_current_user email
  | Req_create_zakat_entry _ _ _ _ email
  | Req_get_zakat_entries email
  | Req_get_zakat_entry _ email
  | Req_update_zakat_entry _ _ email
  | Req_delete_zakat_entry _ email
  | Req_get_zakat_statistics email => Some email
  end.

(** An ObjectId in the form the driver generates and prints: parsing its
    string gives it back. *)
Definition canonical (o : ObjectId_t) : Prop := ObjectId (str o) = Some o.

(** No two stored users share their email, nor their username. *)
Definition unique_emails (w : World) : Prop :=
  List.NoDup (map UserDoc.email (users_collection w)).

Definition unique_usernames (w : World) : Prop :=
  List.NoDup (map UserDoc.username (users_collection w)).

(** Every stored entry names a stored user as its owner. *)
Definition entries_have_owners (w : World) : Prop :=
  Forall (fun e => exists u, In u (users_collection w) /\ owned_by u e = true)
    (zakat_collection w).

(** What identifies an entry and is fixed at its creation. *)
Definition entry_identity (e : ZakatDoc.t) : ObjectId_t * string * datetime :=
  (ZakatDoc._id e, ZakatDoc.user_id e, ZakatDoc.created_at e).

(** The document a creation stores for a user. *)
Definition new_entry (utcnow_date utcnow_created : datetime)
    (inserted_id : ObjectId_t) (zakat : ZakatCreate.t) (user : UserDoc.t)
    : ZakatDoc.t :=
  ZakatDoc.Build inserted_id (ZakatCreate.amount zakat)
    (ZakatCreate.category zakat) (ZakatCreate.description zakat)
    (match ZakatCreate.date zakat with Some d => d | None => utcnow_date end)
    (ZakatCreate.amount zakat * 0.025)%float
    (str (UserDoc._id user)) utcnow_created.

(** The collection methods that write. *)
Definition is_write (op : StoreOp) : bool :=
  match op with
  | Users_insert_one | Zakat_insert_one | Zakat_update_one | Zakat_delete_one => true
  | Users_find_one | Zakat_find | Zakat_find_one => false
  end.

(** The requests of the routes that only read: login, identity, listing,
    reading one entry, statistics. *)
Definition read_only (r : Request) : bool :=
  match r with
  | Req_login _ | Req_get_current_user _ | Req_get_zakat_entries _
  | Req_get_zakat_entry _ _ | Req_get_zakat_statistics _ => true
  | Req_register _ _ _ _ | Req_create_zakat_entry _ _ _ _ _
  | Req_update_zakat_entry _ _ _ | Req_delete_zakat_entry _ _ => false
  end.

(** The counts of a breakdown, added up. *)
Definition breakdown_count (m : gmap string CategoryStats.t) : Z :=
  map_fold (fun _ s acc => CategoryStats.count s + acc) 0 m.

(** * Properties *)

(** ** Lists, filters and the collection primitives *)

Lemma oid_eqb_eq (a b : ObjectId_t) : oid_eqb a b = true <-> a = b.
Proof.
  destruct a as [x], b as [y]. unfold oid_eqb. simpl.
  rewrite String.eqb_eq. split; congruence.
Qed.

Lemma oid_eqb_refl (a : ObjectId_t) : oid_eqb a a = true.
Proof. now apply oid_eqb_eq. Qed.

Lemma Forall_update_first {A} (P : A -> Prop) (p : A -> bool) (f : A -> A)
    (l : list A) :
  (forall x, P x -> P (f x)) -> Forall P l -> Forall P (update_first p f l).
Proof.
  intros Hf. induction 1 as [|x l Hx Hl IH]; simpl; [constructor|].
  destruct (p x); constructor; auto.
Qed.

Lemma Forall_remove_first {A} (P : A -> Prop) (p : A -> bool) (l : list A) :
  Forall P l -> Forall P (remove_first p l).
Proof.
  induction 1 as [|x l Hx Hl IH]; simpl; [constructor|].
  destruct (p x); [assumption | constructor; assumption].
Qed.

Lemma find_update_first {A} (p : A -> bool) (f : A -> A) (l : list A) :
  (forall x, p (f x) = p x) ->
  List.find p (update_first p f l) = option_map f (List.find p l).
Proof.
  intros Hf. induction l as [|x l IH]; simpl; [reflexivity|].
  destruct (p x) eqn:Hx; simpl.
  - now rewrite Hf, Hx.
  - now rewrite Hx.
Qed.

Lemma map_update_first {A B} (g : A -> B) (p : A -> bool) (f : A -> A)
    (l : list A) :
  (forall x, g (f x) = g x) -> map g (update_first p f l) = map g l.
Proof.
  intros Hf. induction l as [|x l IH]; simpl; [reflexivity|].
  destruct (p x); simpl; [now rewrite Hf | now rewrite IH].
Qed.

(** A [$set] built from a partial body gives the entry described by
    [updated_entry]. *)
Lemma apply_set_build_update_data (zakat : ZakatUpdate.t) (e : ZakatDoc.t) :
  apply_set (build_update_data zakat) e = updated_entry zakat e.
Proof.
  destruct zakat as [[a|] [c|] [d|] [t|]], e; reflexivity.
Qed.

Lemma build_update_data_empty (zakat : ZakatUpdate.t) :
  build_update_data zakat = [] <-> zakat = ZakatUpdate.empty.
Proof.
  destruct zakat as [[a|] [c|] [d|] [t|]]; unfold ZakatUpdate.empty; simpl;
    split; intros Heq; try discriminate Heq; reflexivity.
Qed.

Lemma updated_entry_obligation (zakat : ZakatUpdate.t) (e : ZakatDoc.t) :
  ZakatDoc.zakat_amount e = (ZakatDoc.amount e * 0.025)%float ->
  ZakatDoc.zakat_amount (updated_entry zakat e)
  = (ZakatDoc.amount (updated_entry zakat e) * 0.025)%float.
Proof.
  intros He. destruct zakat as [[a|] c d t]; simpl; [reflexivity | exact He].
Qed.

Lemma zakat_matches_id_user (oid : ObjectId_t) (uid : string) (e : ZakatDoc.t) :
  zakat_matches [Z_id oid; Z_user_id uid] e = true
  <-> ZakatDoc._id e = oid /\ ZakatDoc.user_id e = uid.
Proof.
  unfold zakat_matches. simpl.
  rewrite andb_true_r, andb_true_iff, oid_eqb_eq, String.eqb_eq. tauto.
Qed.

Lemma zakat_matches_id (oid : ObjectId_t) (e : ZakatDoc.t) :
  zakat_matches [Z_id oid] e = true <-> ZakatDoc._id e = oid.
Proof.
  unfold zakat_matches. simpl. rewrite andb_true_r. apply oid_eqb_eq.
Qed.

Lemma owned_by_true (user : UserDoc.t) (e : ZakatDoc.t) :
  owned_by user e = true <-> ZakatDoc.user_id e = str (UserDoc._id user).
Proof. unfold owned_by. apply String.eqb_eq. Qed.

(** No entry of the given id is owned by the user: the filtered lookup finds
    nothing. *)
Lemma find_not_owned (oid : ObjectId_t) (user : UserDoc.t) (l : list ZakatDoc.t) :
  (forall e, In e l -> ZakatDoc._id e = oid -> owned_by user e = false) ->
  List.find (zakat_matches [Z_id oid; Z_user_id (str (UserDoc._id user))]) l = None.
Proof.
  intros Hno.
  destruct (List.find _ l) as [e|] eqn:Hf; [|reflexivity].
  apply find_some in Hf. destruct Hf as [Hin Hm].
  apply zakat_matches_id_user in Hm. destruct Hm as [Hid Hu].
  apply owned_by_true in Hu. rewrite (Hno e Hin Hid) in Hu. discriminate Hu.
Qed.

(** An entry of the given id is owned by the user: the filtered lookup finds
    such an entry. *)
Lemma find_owned (oid : ObjectId_t) (user : UserDoc.t) (l : list ZakatDoc.t)
    (e : ZakatDoc.t) :
  In e l -> ZakatDoc._id e = oid -> owned_by user e = true ->
  exists e',
    List.find (zakat_matches [Z_id oid; Z_user_id (str (UserDoc._id user))]) l
    = Some e'
    /\ In e' l /\ ZakatDoc._id e' = oid /\ owned_by user e' = true.
Proof.
  intros Hin Hid Hown.
  destruct (List.find _ l) as [e'|] eqn:Hf.
  - exists e'. split; [reflexivity|]. apply find_some in Hf.
    destruct Hf as [Hin' Hm]. apply zakat_matches_id_user in Hm.
    destruct Hm as [Hid' Hu]. repeat split; try assumption.
    now apply owned_by_true.
  - exfalso. apply (find_none _ _ Hf) in Hin.
    assert (Ht : zakat_matches [Z_id oid; Z_user_id (str (UserDoc._id user))] e = true).
    { apply zakat_matches_id_user. split; [assumption|]. now apply owned_by_true. }
    congruence.
Qed.

Lemma unique_id_eq (l : list ZakatDoc.t) (e e' : ZakatDoc.t) :
  List.NoDup (map ZakatDoc._id l) -> In e l -> In e' l ->
  ZakatDoc._id e = ZakatDoc._id e' -> e = e'.
Proof.
  induction l as [|x l IH]; simpl; intros Hnd He He' Hid; [contradiction|].
  inversion Hnd as [|? ? Hx Hl]; subst.
  destruct He as [<-|He], He' as [<-|He']; auto.
  - exfalso. apply Hx. rewrite Hid. now apply in_map.
  - exfalso. apply Hx. rewrite <- Hid. now apply in_map.
Qed.



Lemma filter_all {A} (p : A -> bool) (l : list A) :
  (forall x, In x l -> p x = true) -> List.filter p l = l.
Proof.
  induction l as [|x l IH]; simpl; intros Hp; [reflexivity|].
  rewrite (Hp x) by now left. f_equal. apply IH. intros y Hy. apply Hp. now right.
Qed.

Lemma remove_first_none {A} (p : A -> bool) (l : list A) :
  existsb p l = false -> remove_first p l = l.
Proof.
  induction l as [|x l IH]; simpl; [reflexivity|].
  destruct (p x); simpl; [discriminate|]. intros Hl. now rewrite IH.
Qed.

(** With unique ids the head is the only entry of its id. *)
Lemma other_ids_differ (x : ZakatDoc.t) (l : list ZakatDoc.t) (y : ZakatDoc.t) :
  List.NoDup (map ZakatDoc._id (x :: l)) -> In y l ->
  oid_eqb (ZakatDoc._id y) (ZakatDoc._id x) = false.
Proof.
  simpl. intros Hnd Hy. inversion Hnd as [|? ? Hx Hl]; subst.
  destruct (oid_eqb (ZakatDoc._id y) (ZakatDoc._id x)) eqn:Heq; [|reflexivity].
  apply oid_eqb_eq in Heq. exfalso. apply Hx. rewrite <- Heq. now apply in_map.
Qed.


(** With unique ids, deleting the first entry of an id and an owner, when there
    is one, leaves the entries of the other ids. *)
Lemma remove_first_unique (oid : ObjectId_t) (uid : string)
    (l : list ZakatDoc.t) (e : ZakatDoc.t) :
  List.NoDup (map ZakatDoc._id l) -> In e l ->
  zakat_matches [Z_id oid; Z_user_id uid] e = true ->
  remove_first (zakat_matches [Z_id oid; Z_user_id uid]) l
  = List.filter (fun x => negb (oid_eqb (ZakatDoc._id x) oid)) l.
Proof.
  intros Hnd Hin He. apply zakat_matches_id_user in He. destruct He as [Hid Hu].
  induction l as [|x l IH]; [contradiction|].
  cbn [remove_first List.filter].
  destruct (zakat_matches [Z_id oid; Z_user_id uid] x) eqn:Hx.
  - apply zakat_matches_id_user in Hx. destruct Hx as [Hxid _].
    rewrite Hxid, oid_eqb_refl. simpl. symmetry. apply filter_all.
    intros y Hy. rewrite <- Hxid. now rewrite (other_ids_differ x l).
  - destruct Hin as [->|Hin].
    { exfalso. assert (Ht : zakat_matches [Z_id oid; Z_user_id uid] e = true)
        by now apply zakat_matches_id_user.
      congruence. }
    assert (Hne : oid_eqb (ZakatDoc._id x) oid = false).
    { rewrite <- Hid.
      destruct (oid_eqb (ZakatDoc._id x) (ZakatDoc._id e)) eqn:Heq; [|reflexivity].
      apply oid_eqb_eq in Heq. simpl in Hnd. inversion Hnd as [|? ? Hnx Hl]; subst.
      exfalso. apply Hnx. rewrite Heq. now apply in_map. }
    rewrite Hne. simpl. f_equal. apply IH; [|assumption].
    simpl in Hnd. now inversion Hnd.
Qed.


Lemma updated_entry_empty (e : ZakatDoc.t) :
  updated_entry ZakatUpdate.empty e = e.
Proof. now destruct e. Qed.

(** ** Lookups in the user collection *)

Lemma user_matches_email (v : string) (u : UserDoc.t) :
  user_matches [U_email v] u = true <-> UserDoc.email u = v.
Proof.
  unfold user_matches. simpl. rewrite andb_true_r. apply String.eqb_eq.
Qed.

Lemma user_matches_username (v : string) (u : UserDoc.t) :
  user_matches [U_username v] u = true <-> UserDoc.username u = v.
Proof.
  unfold user_matches. simpl. rewrite andb_true_r. apply String.eqb_eq.
Qed.

Lemma current_user_email (email : string) (w : World) (user : UserDoc.t) :
  current_user email w = Some user ->
  In user (users_collection w) /\ UserDoc.email user = email.
Proof.
  unfold current_user. intros Hf. apply find_some in Hf.
  destruct Hf as [Hin Hm]. split; [assumption|]. now apply user_matches_email.
Qed.

(** ** The sort by date *)

Lemma insert_desc_perm (e : ZakatDoc.t) (l : list ZakatDoc.t) :
  Permutation (insert_desc e l) (e :: l).
Proof.
  induction l as [|x l IH]; simpl; [apply Permutation_refl|].
  destruct (Z.leb (ZakatDoc.date x) (ZakatDoc.date e)).
  - apply Permutation_refl.
  - apply perm_trans with (x :: e :: l); [now apply perm_skip | apply perm_swap].
Qed.

Lemma sort_date_desc_perm (l : list ZakatDoc.t) :
  Permutation (sort_date_desc l) l.
Proof.
  induction l as [|e l IH]; simpl; [apply perm_nil|].
  apply perm_trans with (e :: sort_date_desc l);
    [apply insert_desc_perm | now apply perm_skip].
Qed.

Lemma insert_desc_sorted (e : ZakatDoc.t) (l : list ZakatDoc.t) :
  StronglySorted not_older l -> StronglySorted not_older (insert_desc e l).
Proof.
  induction 1 as [|x l Hl IH Hx]; simpl.
  - repeat constructor.
  - destruct (Z.leb (ZakatDoc.date x) (ZakatDoc.date e)) eqn:Hle.
    + apply Z.leb_le in Hle. constructor; [now constructor|].
      constructor; [exact Hle|].
      eapply List.Forall_impl; [|exact Hx].
      intros y Hy. unfold not_older in *. lia.
    + apply Z.leb_gt in Hle. constructor; [exact IH|].
      apply (Permutation_Forall (Permutation_sym (insert_desc_perm e l))).
      constructor; [unfold not_older; lia | exact Hx].
Qed.

Lemma sort_date_desc_sorted (l : list ZakatDoc.t) :
  StronglySorted not_older (sort_date_desc l).
Proof.
  induction l as [|e l IH]; simpl; [constructor | now apply insert_desc_sorted].
Qed.

Lemma response_sorted (l : list ZakatDoc.t) :
  StronglySorted not_older l ->
  StronglySorted response_not_older (map ZakatDoc.response l).
Proof.
  induction 1 as [|x l Hl IH Hx]; simpl; constructor; [exact IH|].
  apply List.Forall_map. eapply List.Forall_impl; [|exact Hx]. intros y Hy. exact Hy.
Qed.

(** ** The two summations *)

(** Ten times 0.1: the plain additions give 0.9999999999999999, the
    compensated ones 1. *)
Lemma sum_of_ten_tenths :
  running_sum (repeat 0.1%float 10) = 0.9999999999999999%float
  /\ compensated_sum (repeat 0.1%float 10) = 1%float.
Proof. split; vm_compute; reflexivity. Qed.

(** On one float both summations are the plain addition to zero. *)
Lemma sum_of_one (x : float) :
  running_sum [x] = (0 + x)%float /\ compensated_sum [x] = (0 + x)%float.
Proof. split; reflexivity. Qed.

(** ** The category breakdown *)

Lemma category_stats_step_lookup (m : gmap string CategoryStats.t)
    (e : ZakatDoc.t) (c : string) :
  category_stats_step m e !! c
  = if has_category c e then Some (count_entry e (default zero_stats (m !! c)))
    else m !! c.
Proof.
  unfold category_stats_step, has_category.
  destruct (String.eqb (ZakatDoc.category e) c) eqn:Hc.
  - apply String.eqb_eq in Hc. subst c. rewrite lookup_alter_eq.
    destruct (m !! ZakatDoc.category e) as [s|] eqn:Hm.
    + now rewrite Hm.
    + now rewrite lookup_insert_eq.
  - apply String.eqb_neq in Hc. rewrite lookup_alter_ne by assumption.
    destruct (m !! ZakatDoc.category e); [reflexivity|].
    now rewrite lookup_insert_ne.
Qed.

(** The loop from any dictionary: the record of [c] is the old one (or the
    zero one) after the entries of label [c] have been counted in order. *)
Lemma category_stats_fold_lookup (entries : list ZakatDoc.t)
    (m : gmap string CategoryStats.t) (c : string) :
  fold_left category_stats_step entries m !! c
  = match List.filter (has_category c) entries with
    | [] => m !! c
    | bearing =>
        Some (fold_left (fun s e => count_entry e s) bearing
                (default zero_stats (m !! c)))
    end.
Proof.
  revert m. induction entries as [|e entries IH]; intros m; simpl; [reflexivity|].
  rewrite IH, category_stats_step_lookup.
  destruct (has_category c e); simpl.
  - now destruct (List.filter (has_category c) entries).
  - reflexivity.
Qed.

Lemma count_entries_from (bearing : list ZakatDoc.t) (s : CategoryStats.t) :
  fold_left (fun s e => count_entry e s) bearing s
  = CategoryStats.Build
      (CategoryStats.count s + Z.of_nat (length bearing))
      (fold_left PrimFloat.add (map ZakatDoc.amount bearing)
         (CategoryStats.total_amount s))
      (fold_left PrimFloat.add (map ZakatDoc.zakat_amount bearing)
         (CategoryStats.total_zakat s)).
Proof.
  revert s. induction bearing as [|e bearing IH]; intros s.
  - destruct s. simpl. f_equal. lia.
  - cbn [fold_left map length]. rewrite IH. unfold count_entry. simpl.
    f_equal. lia.
Qed.

Lemma filter_nil_existsb {A} (p : A -> bool) (l : list A) :
  List.filter p l = [] <-> existsb p l = false.
Proof.
  induction l as [|x l IH]; simpl; [tauto|].
  destruct (p x); simpl; [split; discriminate | exact IH].
Qed.

Lemma calculate_statistics_breakdown {python : Interpreter}
    (entries : list ZakatDoc.t) (c : string) :
  Statistics.category_breakdown (calculate_statistics entries) !! c
  = if existsb (has_category c) entries then Some (category_summary c entries)
    else None.
Proof.
  unfold calculate_statistics. cbn [Statistics.category_breakdown].
  rewrite category_stats_fold_lookup, lookup_empty.
  destruct (existsb (has_category c) entries) eqn:Hex.
  - destruct (List.filter (has_category c) entries) as [|e bearing] eqn:Hf.
    + apply filter_nil_existsb in Hf. congruence.
    + rewrite count_entries_from. unfold category_summary. rewrite Hf.
      reflexivity.
  - apply filter_nil_existsb in Hex. now rewrite Hex.
Qed.

(** Unfolds a handler down to the collections. *)
Ltac run_handler :=
  unfold register, login, get_current_user, create_zakat_entry,
    get_zakat_entries, get_zakat_entry, update_zakat_entry, delete_zakat_entry,
    get_zakat_statistics, bind, ret, raise, users_find_one, users_insert_one,
    zakat_insert_one, zakat_find, zakat_find_sort_date_desc, zakat_find_one,
    zakat_update_one, zakat_delete_one, record_op in *;
  simpl in *.

(** ** The run of an update *)

Lemma find_is_Some {A} (p : A -> bool) (l : list A) (x : A) :
  In x l -> p x = true -> exists y, List.find p l = Some y.
Proof.
  intros Hin Hp. destruct (List.find p l) as [y|] eqn:Hf; [now exists y|].
  apply (find_none _ _ Hf) in Hin. congruence.
Qed.

(** The filtered lookup of an id finds an entry: so does the lookup of the
    id alone. *)
Lemma find_id_of_find_owned (oid : ObjectId_t) (uid : string)
    (l : list ZakatDoc.t) (e0 : ZakatDoc.t) :
  List.find (zakat_matches [Z_id oid; Z_user_id uid]) l = Some e0 ->
  exists e1, List.find (zakat_matches [Z_id oid]) l = Some e1.
Proof.
  intros Hf. apply find_some in Hf. destruct Hf as [Hin Hm].
  apply zakat_matches_id_user in Hm. destruct Hm as [Hid _].
  apply (find_is_Some _ l e0 Hin). now apply zakat_matches_id.
Qed.

Lemma update_first_ext {A} (p : A -> bool) (f g : A -> A) (l : list A) :
  (forall x, f x = g x) -> update_first p f l = update_first p g l.
Proof.
  intros Hfg. induction l as [|x l IH]; simpl; [reflexivity|].
  destruct (p x); [now rewrite Hfg | now rewrite IH].
Qed.

Lemma update_first_fixed {A} (p : A -> bool) (f : A -> A) (l : list A) :
  (forall x, In x l -> p x = true -> f x = x) -> update_first p f l = l.
Proof.
  induction l as [|x l IH]; simpl; intros Hf; [reflexivity|].
  destruct (p x) eqn:Hx.
  - f_equal. apply Hf; [now left | exact Hx].
  - f_equal. apply IH. intros y Hy. apply Hf. now right.
Qed.

(** The run of an update whose two lookups find [e0] and [e1]. *)
Lemma update_found (zakat_id : string) (zakat : ZakatUpdate.t) (email : string)
    (w : World) (user : UserDoc.t) (oid : ObjectId_t) (e0 e1 : ZakatDoc.t) :
  current_user email w = Some user ->
  ObjectId zakat_id = Some oid ->
  List.find (zakat_matches [Z_id oid; Z_user_id (str (UserDoc._id user))])
    (zakat_collection w) = Some e0 ->
  List.find (zakat_matches [Z_id oid]) (zakat_collection w) = Some e1 ->
  fst (update_zakat_entry zakat_id zakat email w)
  = Ok (ZakatDoc.response (updated_entry zakat e1))
  /\ zakat_collection (snd (update_zakat_entry zakat_id zakat email w))
     = update_first (zakat_matches [Z_id oid]) (updated_entry zakat)
         (zakat_collection w)
  /\ users_collection (snd (update_zakat_entry zakat_id zakat email w))
     = users_collection w.
Proof.
  unfold current_user. intros Hu Hoid H0 H1.
  unfold update_zakat_entry, bind, users_find_one, zakat_find_one. simpl.
  rewrite Hu. simpl. rewrite Hoid. simpl. rewrite H0. simpl.
  destruct (build_update_data zakat) as [|s0 l0] eqn:Hd.
  - apply build_update_data_empty in Hd. subst zakat.
    unfold ret. simpl. rewrite H1. simpl.
    rewrite updated_entry_empty. repeat split.
    symmetry. apply update_first_fixed. intros x _ _. apply updated_entry_empty.
  - rewrite <- Hd. unfold zakat_update_one. simpl.
    rewrite find_update_first, H1.
    2:{ intros x. rewrite apply_set_build_update_data. reflexivity. }
    simpl. rewrite apply_set_build_update_data. repeat split.
    apply update_first_ext. intros x. apply apply_set_build_update_data.
Qed.

Section Properties.

Context {auth : AuthModule} {python : Interpreter}.

(** ** The obligation of the stored entries *)

Lemma step_obligation_invariant (r : Request) (w : World) :
  obligation_invariant w -> obligation_invariant (step r w).
Proof.
  unfold obligation_invariant. intros Hw.
  destruct r; simpl; run_handler;
    repeat match goal with
      | |- context [List.find ?p ?l] => destruct (List.find p l); simpl
      | |- context [ObjectId ?s] => destruct (ObjectId s); simpl
      | |- context [negb ?b] => destruct b; simpl
      | |- context [build_update_data ?z] =>
          let H := fresh "Hd" in destruct (build_update_data z) eqn:H; simpl
      | |- context [existsb ?p ?l] => destruct (existsb p l); simpl
      end;
    try assumption.
  - (* create *)
    apply Forall_app. split; [assumption|]. repeat constructor.
  - (* update, also when the second lookup finds nothing *)
    apply Forall_update_first; [|assumption].
    intros x Hx. rewrite <- Hd, apply_set_build_update_data.
    now apply updated_entry_obligation.
  - apply Forall_update_first; [|assumption].
    intros x Hx. rewrite <- Hd, apply_set_build_update_data.
    now apply updated_entry_obligation.
  - now apply Forall_remove_first.
  - now apply Forall_remove_first.
Qed.

Lemma run_obligation_invariant (rs : list Request) (w : World) :
  obligation_invariant w -> obligation_invariant (run rs w).
Proof.
  revert w. induction rs as [|r rs IH]; intros w Hw; simpl; [assumption|].
  apply IH. now apply step_obligation_invariant.
Qed.

(** C1. The stored obligation of an entry is its amount times 0.025:
    (1) in every store the handlers build from the empty one, whatever the
    requests; (2) the property is kept by every request on any store that
    has it; (3) a creation stores and returns the supplied amount with the
    obligation computed from it; (4) an update that supplies an amount
    returns that amount with the obligation recomputed from it, and an
    update that supplies none touches neither the amount nor the obligation
    of any entry; (5) an update of an entry of the caller that supplies an
    amount succeeds and writes: the entry of that id that the store holds
    afterwards, in the place of the one it held (the entry of the caller when
    ids are unique), has the supplied amount and 0.025 times it as its
    obligation, and is what the response shows; (6) a creation by a user
    succeeds and appends an entry with the supplied amount and 0.025 times
    it as its obligation, which the response shows too. *)
Theorem zakat_amount_is_rate_times_amount :
  (forall rs : list Request, obligation_invariant (run rs empty_world))
  /\ (forall (r : Request) (w : World),
        obligation_invariant w -> obligation_invariant (step r w))
  /\ (forall d c i zakat email w resp,
        fst (create_zakat_entry d c i zakat email w) = Ok resp ->
        ZakatResponse.amount resp = ZakatCreate.amount zakat
        /\ ZakatResponse.zakat_amount resp = (ZakatCreate.amount zakat * 0.025)%float
        /\ exists doc,
             zakat_collection (snd (create_zakat_entry d c i zakat email w))
             = (zakat_collection w ++ [doc])%list
             /\ ZakatDoc.amount doc = ZakatCreate.amount zakat
             /\ ZakatDoc.zakat_amount doc = (ZakatCreate.amount zakat * 0.025)%float)
  /\ (forall zakat_id zakat email w,
        match ZakatUpdate.amount zakat with
        | Some a =>
            forall resp,
              fst (update_zakat_entry zakat_id zakat email w) = Ok resp ->
              ZakatResponse.amount resp = a
              /\ ZakatResponse.zakat_amount resp = (a * 0.025)%float
        | None =>
            map (fun e => (ZakatDoc.amount e, ZakatDoc.zakat_amount e))
              (zakat_collection (snd (update_zakat_entry zakat_id zakat email w)))
            = map (fun e => (ZakatDoc.amount e, ZakatDoc.zakat_amount e))
                (zakat_collection w)
        end)
  /\ (forall zakat_id zakat email w user oid e a,
        current_user email w = Some user ->
        ObjectId zakat_id = Some oid ->
        In e (zakat_collection w) -> ZakatDoc._id e = oid ->
        owned_by user e = true ->
        ZakatUpdate.amount zakat = Some a ->
        let w' := snd (update_zakat_entry zakat_id zakat email w) in
        exists resp e1 e1',
          fst (update_zakat_entry zakat_id zakat email w) = Ok resp
          /\ List.find (zakat_matches [Z_id oid]) (zakat_collection w) = Some e1
          /\ List.find (zakat_matches [Z_id oid]) (zakat_collection w') = Some e1'
          /\ ZakatDoc.amount e1' = a
          /\ ZakatDoc.zakat_amount e1' = (a * 0.025)%float
          /\ resp = ZakatDoc.response e1'
          /\ zakat_collection w'
             = update_first (zakat_matches [Z_id oid]) (fun _ => e1')
                 (zakat_collection w)
          /\ (unique_entry_ids w -> e1 = e))
  /\ (forall d c i zakat email w user,
        current_user email w = Some user ->
        exists resp doc,
          fst (create_zakat_entry d c i zakat email w) = Ok resp
          /\ zakat_collection (snd (create_zakat_entry d c i zakat email w))
             = (zakat_collection w ++ [doc])%list
          /\ ZakatDoc.amount doc = ZakatCreate.amount zakat
          /\ ZakatDoc.zakat_amount doc = (ZakatCreate.amount zakat * 0.025)%float
          /\ ZakatResponse.amount resp = ZakatCreate.amount zakat
          /\ ZakatResponse.zakat_amount resp
             = (ZakatCreate.amount zakat * 0.025)%float).
Proof.
  split; [|split; [|split; [|split; [|split]]]].
  6:{ intros d c i zakat email w user Hu. unfold current_user in Hu.
      run_handler. rewrite Hu. simpl. do 2 eexists. repeat split. }
  5:{ intros zakat_id zakat email w user oid e a Hu Hoid Hin Hid Hown Ha w'.
      destruct (find_owned oid user _ e Hin Hid Hown) as (e0 & H0 & _).
      destruct (find_id_of_find_owned _ _ _ _ H0) as [e1 H1].
      destruct (update_found zakat_id zakat email w user oid e0 e1 Hu Hoid H0 H1)
        as (Hres & Hz & _).
      fold w' in Hz.
      exists (ZakatDoc.response (updated_entry zakat e1)), e1,
             (updated_entry zakat e1).
      split; [exact Hres|]. split; [exact H1|].
      split; [rewrite Hz, find_update_first, H1; reflexivity|].
      unfold updated_entry at 1 2. simpl. rewrite Ha.
      split; [reflexivity|]. split; [reflexivity|]. split; [reflexivity|].
      split.
      - rewrite Hz. clear - H1. revert H1.
        induction (zakat_collection w) as [|x l IH];
          cbn [List.find update_first]; [reflexivity|].
        destruct (zakat_matches [Z_id oid] x).
        + now intros [= ->].
        + intros H1. f_equal. now apply IH.
      - intros Hnd. apply find_some in H1 as [Hin1 Hm1].
        apply zakat_matches_id in Hm1.
        apply (unique_id_eq (zakat_collection w)); try assumption. congruence. }
  - intros rs. apply run_obligation_invariant. constructor.
  - exact step_obligation_invariant.
  - intros d c i zakat email w resp. run_handler.
    destruct (List.find _ (users_collection w)); simpl; [|discriminate].
    intros [= <-]. simpl. repeat split. eexists. repeat split.
  - intros zakat_id zakat email w.
    destruct (ZakatUpdate.amount zakat) as [a|] eqn:Ha.
    + intros resp. run_handler.
      destruct (List.find _ (users_collection w)); simpl; [|discriminate].
      destruct (ObjectId zakat_id) as [oid|]; simpl; [|discriminate].
      destruct (List.find _ (zakat_collection w)); simpl; [|discriminate].
      destruct (build_update_data zakat) as [|s0 l0] eqn:Hd.
      { apply build_update_data_empty in Hd. subst zakat. discriminate Ha. }
      simpl. rewrite <- Hd.
      rewrite find_update_first.
      2:{ intros x. rewrite apply_set_build_update_data.
          reflexivity. }
      destruct (List.find _ (zakat_collection w)) as [x|]; simpl; [|discriminate].
      intros [= <-]. rewrite apply_set_build_update_data.
      unfold updated_entry. simpl. rewrite Ha. split; reflexivity.
    + run_handler.
      destruct (List.find _ (users_collection w)); simpl; [|reflexivity].
      destruct (ObjectId zakat_id) as [oid|]; simpl; [|reflexivity].
      destruct (List.find _ (zakat_collection w)); simpl; [|reflexivity].
      destruct (build_update_data zakat) as [|s0 l0] eqn:Hd; simpl.
      { destruct (List.find _ (zakat_collection w)); reflexivity. }
      rewrite <- Hd.
      assert (Hmap :
        map (fun e => (ZakatDoc.amount e, ZakatDoc.zakat_amount e))
          (update_first (zakat_matches [Z_id oid])
             (apply_set (build_update_data zakat)) (zakat_collection w))
        = map (fun e => (ZakatDoc.amount e, ZakatDoc.zakat_amount e))
            (zakat_collection w)).
      { apply map_update_first. intros x.
        rewrite apply_set_build_update_data. unfold updated_entry. simpl.
        now rewrite Ha. }
      destruct (List.find _ (update_first _ _ _)); simpl; exact Hmap.
Qed.

(** ** Statistics *)

(** C2. On every list of entries the calculation of the statistics gives
    the sum of the amounts and the sum of the stored obligations, as the
    builtin [sum] of the interpreter adds them (plain additions before
    CPython 3.12, compensated from 3.12 on), the length of the list, and a
    breakdown that maps a label borne by some entry to the count and the two
    running sums of the entries that bear it, and no other label; on no entry
    it gives zero totals and the empty breakdown; the handler returns this
    calculation on the caller's entries; and on the three entries of amounts
    100, 200 and 50 and labels Cash, Cash and Gold recorded by one user it
    returns 350, 8.75 and 3 with Cash at 2, 300 and 7.5 and Gold at 1, 50 and
    1.25, whatever the interpreter. *)
Theorem statistics_totals_and_breakdown :
  (forall entries : list ZakatDoc.t,
      let s := calculate_statistics entries in
      Statistics.total_amount s = py_sum (map ZakatDoc.amount entries)
      /\ Statistics.total_zakat s = py_sum (map ZakatDoc.zakat_amount entries)
      /\ Statistics.total_entries s = Z.of_nat (length entries)
      /\ forall c : string,
           Statistics.category_breakdown s !! c
           = if existsb (has_category c) entries
             then Some (category_summary c entries)
             else None)
  /\ (forall xs : list float,
        py_sum xs
        = match float_sum_algorithm with
          | PlainSum => running_sum xs
          | CompensatedSum => compensated_sum xs
          end)
  /\ calculate_statistics [] = Statistics.Build 0%float 0%float 0 ∅
  /\ (forall email w user,
        current_user email w = Some user ->
        fst (get_zakat_statistics email w)
        = Ok (calculate_statistics
                (List.filter (owned_by user) (zakat_collection w))))
  /\ fst (get_zakat_statistics "amina@example.org" Sample.world)
     = Ok (Statistics.Build 350%float 8.75%float 3
             (<["Cash" := CategoryStats.Build 2 300%float 7.5%float]>
                (<["Gold" := CategoryStats.Build 1 50%float 1.25%float]> ∅))).
Proof.
  split; [|split; [|split; [|split]]].
  - intros entries s. repeat split.
    intros c. apply calculate_statistics_breakdown.
  - reflexivity.
  - destruct python as [[]]; reflexivity.
  - intros email w user Hu. unfold current_user in Hu. run_handler.
    rewrite Hu. simpl. do 2 f_equal.
    apply filter_ext. intros e. unfold zakat_matches, owned_by. simpl.
    apply andb_true_r.
  - destruct python as [[]]; vm_compute; reflexivity.
Qed.

(** ** Creating an entry *)

(** C3, as the code has it. Validation of a creation request looks at the
    presence of the amount and of the category and not at the sign of the
    amount: every body with both is accepted, and for an existing user the
    obligation is calculated on the supplied amount, whatever its sign, and
    the entry is stored and returned with that amount and the obligation
    0.025 times it. *)
Theorem creation_accepts_any_amount (b : ZakatCreate.body) (a : float)
    (c : string) :
  ZakatCreate.body_amount b = Some a ->
  ZakatCreate.body_category b = Some c ->
  exists zakat,
    ZakatCreate.validate b = Some zakat
    /\ ZakatCreate.amount zakat = a
    /\ forall d cr i email w user,
         current_user email w = Some user ->
         exists resp doc,
           fst (create_zakat_entry d cr i zakat email w) = Ok resp
           /\ ZakatResponse.amount resp = a
           /\ ZakatResponse.zakat_amount resp = (a * 0.025)%float
           /\ zakat_collection (snd (create_zakat_entry d cr i zakat email w))
              = (zakat_collection w ++ [doc])%list
           /\ ZakatDoc.amount doc = a
           /\ ZakatDoc.zakat_amount doc = (a * 0.025)%float
           /\ owned_by user doc = true.
Proof.
  intros Ha Hc. unfold ZakatCreate.validate. rewrite Ha, Hc.
  eexists. split; [reflexivity|]. split; [reflexivity|].
  intros d cr i email w user Hu. unfold current_user in Hu. run_handler.
  rewrite Hu. simpl. do 2 eexists. repeat split.
  unfold owned_by. simpl. apply String.eqb_refl.
Qed.

(** ** Reading one entry *)


(** ** Updating an entry *)


(** ** Deleting an entry *)

Lemma delete_not_owned (zakat_id email : string) (w : World)
    (user : UserDoc.t) (oid : ObjectId_t) :
  current_user email w = Some user ->
  ObjectId zakat_id = Some oid ->
  (forall e, In e (zakat_collection w) -> ZakatDoc._id e = oid ->
             owned_by user e = false) ->
  fst (delete_zakat_entry zakat_id email w) = Raise zakat_entry_not_found
  /\ zakat_collection (snd (delete_zakat_entry zakat_id email w))
     = zakat_collection w
  /\ users_collection (snd (delete_zakat_entry zakat_id email w))
     = users_collection w.
Proof.
  intros Hu Hoid Hno. unfold current_user in Hu. run_handler.
  rewrite Hu. simpl. rewrite Hoid. simpl.
  assert (Hex :
    existsb (zakat_matches [Z_id oid; Z_user_id (str (UserDoc._id user))])
      (zakat_collection w) = false).
  { destruct (existsb _ _) eqn:Hex; [|reflexivity].
    apply existsb_exists in Hex. destruct Hex as (e & Hin & Hm).
    apply zakat_matches_id_user in Hm. destruct Hm as [Hid Hown].
    apply owned_by_true in Hown. rewrite (Hno e Hin Hid) in Hown.
    discriminate Hown. }
  rewrite (remove_first_none _ _ Hex), Hex. simpl.
  repeat split.
Qed.

Lemma delete_owned (zakat_id email : string) (w : World)
    (user : UserDoc.t) (oid : ObjectId_t) (e : ZakatDoc.t) :
  unique_entry_ids w ->
  current_user email w = Some user ->
  ObjectId zakat_id = Some oid ->
  In e (zakat_collection w) -> ZakatDoc._id e = oid -> owned_by user e = true ->
  fst (delete_zakat_entry zakat_id email w) = Ok tt
  /\ zakat_collection (snd (delete_zakat_entry zakat_id email w))
     = List.filter (fun x => negb (oid_eqb (ZakatDoc._id x) oid))
         (zakat_collection w)
  /\ users_collection (snd (delete_zakat_entry zakat_id email w))
     = users_collection w.
Proof.
  intros Hnd Hu Hoid Hin Hid Hown. unfold current_user in Hu.
  assert (Hm :
    zakat_matches [Z_id oid; Z_user_id (str (UserDoc._id user))] e = true).
  { apply zakat_matches_id_user. split; [assumption|]. now apply owned_by_true. }
  assert (Hex :
    existsb (zakat_matches [Z_id oid; Z_user_id (str (UserDoc._id user))])
      (zakat_collection w) = true).
  { apply existsb_exists. now exists e. }
  pose proof (remove_first_unique oid _ _ e Hnd Hin Hm) as Hrm.
  run_handler. rewrite Hu. simpl. rewrite Hoid. simpl.
  rewrite Hex, Hrm. simpl. repeat split.
Qed.

Lemma filter_other_ids (oid : ObjectId_t) (l : list ZakatDoc.t) :
  Forall (fun x => ZakatDoc._id x <> oid)
    (List.filter (fun x => negb (oid_eqb (ZakatDoc._id x) oid)) l).
Proof.
  apply List.Forall_forall. intros x Hx. apply filter_In in Hx.
  destruct Hx as [_ Hx]. intros Heq. apply oid_eqb_eq in Heq.
  rewrite Heq in Hx. discriminate Hx.
Qed.

(** C6. A delete request with a well-formed id: (1) when an entry of that
    id owned by the caller exists (ids being unique) the request succeeds
    with no body, the collection is left with the entries of the other ids,
    and the same request once more fails with the 404 of a missing entry
    and leaves the collection, still without an entry of that id, as it
    is; (2) when no entry of that id is owned by the caller the request
    fails with a 404 and the collection is unchanged. *)
Theorem delete_zakat_entry_outcomes (zakat_id email : string) (w : World)
    (oid : ObjectId_t) :
  ObjectId zakat_id = Some oid ->
  let w1 := snd (delete_zakat_entry zakat_id email w) in
  let w2 := snd (delete_zakat_entry zakat_id email w1) in
  (forall user e,
      unique_entry_ids w ->
      current_user email w = Some user ->
      In e (zakat_collection w) -> ZakatDoc._id e = oid ->
      owned_by user e = true ->
      fst (delete_zakat_entry zakat_id email w) = Ok tt
      /\ zakat_collection w1
         = List.filter (fun x => negb (oid_eqb (ZakatDoc._id x) oid))
             (zakat_collection w)
      /\ Forall (fun x => ZakatDoc._id x <> oid) (zakat_collection w1)
      /\ fst (delete_zakat_entry zakat_id email w1) = Raise zakat_entry_not_found
      /\ NotFound zakat_entry_not_found
      /\ zakat_collection w2 = zakat_collection w1
      /\ Forall (fun x => ZakatDoc._id x <> oid) (zakat_collection w2))
  /\ ((forall user e,
          current_user email w = Some user ->
          In e (zakat_collection w) -> ZakatDoc._id e = oid ->
          owned_by user e = false) ->
      exists err,
        fst (delete_zakat_entry zakat_id email w) = Raise err
        /\ NotFound err
        /\ zakat_collection w1 = zakat_collection w).
Proof.
  intros Hoid w1 w2. split.
  - intros user e Hnd Hu Hin Hid Hown.
    destruct (delete_owned zakat_id email w user oid e Hnd Hu Hoid Hin Hid Hown)
      as (Hres & Hcoll & Husers).
    fold w1 in Hcoll, Husers.
    assert (Hgone : Forall (fun x => ZakatDoc._id x <> oid) (zakat_collection w1)).
    { rewrite Hcoll. apply filter_other_ids. }
    assert (Hu1 : current_user email w1 = Some user).
    { unfold current_user. rewrite Husers. exact Hu. }
    destruct (delete_not_owned zakat_id email w1 user oid Hu1 Hoid)
      as (Hres2 & Hcoll2 & _).
    { intros x Hx Hxid. rewrite List.Forall_forall in Hgone.
      now destruct (Hgone x Hx). }
    fold w2 in Hcoll2.
    repeat split; try assumption. now rewrite Hcoll2.
  - intros Hno. destruct (current_user email w) as [user|] eqn:Hu.
    + destruct (delete_not_owned zakat_id email w user oid Hu Hoid)
        as (Hres & Hcoll & _).
      { intros e. now apply Hno. }
      exists zakat_entry_not_found. repeat split; assumption.
    + exists user_not_found. unfold current_user in Hu. subst w1.
      run_handler. rewrite Hu. simpl. repeat split.
Qed.

(** ** Listing the entries *)

Lemma get_zakat_entries_of_user (email : string) (w : World)
    (user : UserDoc.t) :
  current_user email w = Some user ->
  get_zakat_entries email w
  = (Ok (map ZakatDoc.response
           (sort_date_desc (List.filter (owned_by user) (zakat_collection w)))),
     record_op Zakat_find (record_op Users_find_one w)).
Proof.
  intros Hu. unfold current_user in Hu. run_handler. rewrite Hu. simpl.
  do 4 f_equal. apply filter_ext. intros e. unfold zakat_matches, owned_by.
  simpl. apply andb_true_r.
Qed.

(** C7. A listing returns a list exactly when the caller is a user, and
    the list is then, up to the order, the entries of the collection that
    the caller owns (each as its response) and nothing else, sorted by date,
    newest first; the store is not changed. *)
Theorem get_zakat_entries_owned_sorted (email : string) (w : World) :
  (forall user,
      current_user email w = Some user ->
      exists entries, fst (get_zakat_entries email w) = Ok entries)
  /\ (forall entries,
        fst (get_zakat_entries email w) = Ok entries ->
        exists user,
          current_user email w = Some user
          /\ Permutation entries
               (map ZakatDoc.response
                  (List.filter (owned_by user) (zakat_collection w)))
          /\ StronglySorted response_not_older entries
          /\ Forall (fun r => ZakatResponse.user_id r = str (UserDoc._id user))
               entries
          /\ (forall e, In e (zakat_collection w) -> owned_by user e = true ->
                        In (ZakatDoc.response e) entries))
  /\ users_collection (snd (get_zakat_entries email w)) = users_collection w
  /\ zakat_collection (snd (get_zakat_entries email w)) = zakat_collection w.
Proof.
  destruct (current_user email w) as [user|] eqn:Hu.
  - rewrite (get_zakat_entries_of_user email w user Hu). simpl.
    split; [intros; eexists; reflexivity|].
    split; [|split; reflexivity].
    intros entries [= <-]. exists user. split; [reflexivity|].
    assert (Hperm :
      Permutation
        (map ZakatDoc.response
           (sort_date_desc (List.filter (owned_by user) (zakat_collection w))))
        (map ZakatDoc.response
           (List.filter (owned_by user) (zakat_collection w)))).
    { apply Permutation_map, sort_date_desc_perm. }
    split; [exact Hperm|].
    split; [apply response_sorted, sort_date_desc_sorted|]. split.
    + apply (Permutation_Forall (Permutation_sym Hperm)).
      apply List.Forall_map. apply List.Forall_forall. intros e He.
      apply filter_In in He. destruct He as [_ He]. simpl.
      now apply owned_by_true.
    + intros e Hin Hown.
      apply (Permutation_in _ (Permutation_sym Hperm)).
      apply in_map. apply filter_In. now split.
  - unfold current_user in Hu. run_handler. rewrite Hu. simpl.
    split; [discriminate|]. split; [discriminate|]. split; reflexivity.
Qed.

(** ** Login *)

(** C8. A login for an email that no user has and a login with a password
    that does not verify against the stored hash of the user raise the same
    exception, the 401 with one message and one header list, and leave the
    same trace on the store (the one lookup by email): any two failed logins
    raise equal exceptions. When the user exists and the password verifies
    the result is a bearer token made for the email of that user, which is
    the submitted one. *)
Theorem login_outcomes :
  (forall form_data w,
      current_user (OAuth2PasswordRequestForm.username form_data) w = None ->
      login form_data w
      = (Raise incorrect_email_or_password, record_op Users_find_one w))
  /\ (forall form_data w user,
        current_user (OAuth2PasswordRequestForm.username form_data) w = Some user ->
        verify_password (OAuth2PasswordRequestForm.password form_data)
          (UserDoc.password user) = false ->
        login form_data w
        = (Raise incorrect_email_or_password, record_op Users_find_one w))
  /\ (forall form_data w user,
        current_user (OAuth2PasswordRequestForm.username form_data) w = Some user ->
        verify_password (OAuth2PasswordRequestForm.password form_data)
          (UserDoc.password user) = true ->
        fst (login form_data w)
        = Ok (Token.Build
                (create_access_token (UserDoc.email user)
                   ACCESS_TOKEN_EXPIRE_MINUTES)
                "bearer")
        /\ UserDoc.email user = OAuth2PasswordRequestForm.username form_data)
  /\ (forall form1 w1 form2 w2 err1 err2,
        fst (login form1 w1) = Raise err1 ->
        fst (login form2 w2) = Raise err2 ->
        err1 = err2 /\ Unauthorized err1)
  /\ Unauthorized incorrect_email_or_password.
Proof.
  unfold current_user. split; [|split; [|split; [|split]]].
  - intros form_data w Hu. run_handler. now rewrite Hu.
  - intros form_data w user Hu Hv. run_handler. rewrite Hu. simpl.
    now rewrite Hv.
  - intros form_data w user Hu Hv. split.
    + run_handler. rewrite Hu. simpl. now rewrite Hv.
    + now apply (current_user_email _ w).
  - assert (Hfail : forall form_data w err,
              fst (login form_data w) = Raise err ->
              err = incorrect_email_or_password).
    { intros form_data w err. run_handler.
      destruct (List.find _ (users_collection w)) as [user|]; simpl.
      - destruct (verify_password _ _); simpl; [discriminate|].
        now intros [= <-].
      - now intros [= <-]. }
    intros form1 w1 form2 w2 err1 err2 H1 H2.
    apply Hfail in H1, H2. subst. split; reflexivity.
  - reflexivity.
Qed.

(** ** Registration *)

(** C9. A registration with an email or a username that a stored user
    already has fails with a 400 for the duplicate and leaves the user
    collection as it is. Otherwise the user is appended to the collection,
    with the hash of the password and the creation time as the store keeps
    it, and the response carries the id, the username, the email, the full
    name and the creation time. The response
    has no other field, and it does not depend on the password, the salt or
    the hash function. *)
Theorem register_outcomes (utcnow : datetime) (inserted_id : ObjectId_t)
    (salt : string) (user : UserCreate.t) (w : World) :
  ((exists u, In u (users_collection w)
              /\ (UserDoc.email u = UserCreate.email user
                  \/ UserDoc.username u = UserCreate.username user)) ->
   exists err,
     fst (register utcnow inserted_id salt user w) = Raise err
     /\ Conflict err
     /\ users_collection (snd (register utcnow inserted_id salt user w))
        = users_collection w)
  /\ ((forall u, In u (users_collection w) ->
                 UserDoc.email u <> UserCreate.email user
                 /\ UserDoc.username u <> UserCreate.username user) ->
      fst (register utcnow inserted_id salt user w)
      = Ok (UserResponse.Build (str inserted_id) (UserCreate.username user)
              (UserCreate.email user) (UserCreate.full_name user) utcnow)
      /\ users_collection (snd (register utcnow inserted_id salt user w))
         = (users_collection w
            ++ [UserDoc.Build inserted_id (UserCreate.username user)
                  (UserCreate.email user)
                  (get_password_hash salt (UserCreate.password user))
                  (UserCreate.full_name user) (bson_datetime utcnow)])%list)
  /\ (forall (auth' : AuthModule) (salt' password' : string),
        fst (@register auth' utcnow inserted_id salt'
               (UserCreate.Build (UserCreate.username user)
                  (UserCreate.email user) password'
                  (UserCreate.full_name user)) w)
        = fst (register utcnow inserted_id salt user w)).
Proof.
  split; [|split].
  - intros (u & Hin & Hdup). run_handler.
    destruct (List.find (user_matches [U_email _]) _) eqn:He; simpl.
    { eexists. split; [reflexivity|]. split; [|reflexivity].
      split; [reflexivity | now left]. }
    destruct (List.find (user_matches [U_username _]) _) eqn:Hn; simpl.
    { eexists. split; [reflexivity|]. split; [|reflexivity].
      split; [reflexivity | now right]. }
    exfalso. apply (find_none _ _ He) in Hin as He'.
    apply (find_none _ _ Hn) in Hin as Hn'.
    destruct Hdup as [Hdup|Hdup].
    + apply user_matches_email in Hdup. congruence.
    + apply user_matches_username in Hdup. congruence.
  - intros Hnew. run_handler.
    destruct (List.find (user_matches [U_email _]) _) eqn:He; simpl.
    { apply find_some in He. destruct He as [Hin Hm].
      apply user_matches_email in Hm. now destruct (Hnew _ Hin). }
    destruct (List.find (user_matches [U_username _]) _) eqn:Hn; simpl.
    { apply find_some in Hn. destruct Hn as [Hin Hm].
      apply user_matches_username in Hm. now destruct (Hnew _ Hin). }
    split; reflexivity.
  - intros auth' salt' password'. run_handler.
    destruct (List.find (user_matches [U_email _]) _); simpl; [reflexivity|].
    destruct (List.find (user_matches [U_username _]) _); reflexivity.
Qed.

(** ** The missing user *)

(** C10. When the email of the token has no user in the store, each of the
    six entry operations raises the 404 of the missing user after its one
    lookup in the user collection: no method of the entry collection has
    been called, and the two collections are as before. *)
Theorem entry_operations_need_the_user (email : string) (w : World) :
  current_user email w = None ->
  (forall d c i zakat, fails_user_not_found (create_zakat_entry d c i zakat email) w)
  /\ fails_user_not_found (get_zakat_entries email) w
  /\ (forall zakat_id, fails_user_not_found (get_zakat_entry zakat_id email) w)
  /\ (forall zakat_id zakat,
        fails_user_not_found (update_zakat_entry zakat_id zakat email) w)
  /\ (forall zakat_id, fails_user_not_found (delete_zakat_entry zakat_id email) w)
  /\ fails_user_not_found (get_zakat_statistics email) w
  /\ NotFound user_not_found
  /\ on_zakat_collection Users_find_one = false.
Proof.
  unfold current_user, fails_user_not_found. intros Hu.
  repeat split; intros; run_handler; rewrite Hu; reflexivity.
Qed.

(** ** Stores built by the handlers *)

Lemma apply_set_id (update_data : list SetField) (e : ZakatDoc.t) :
  ZakatDoc._id (apply_set update_data e) = ZakatDoc._id e.
Proof.
  unfold apply_set. revert e.
  induction update_data as [|s0 l IH]; intros e; simpl; [reflexivity|].
  rewrite IH. now destruct e, s0.
Qed.

Lemma NoDup_map_remove_first {A B} (g : A -> B) (p : A -> bool) (l : list A) :
  List.NoDup (map g l) -> List.NoDup (map g (remove_first p l)).
Proof.
  induction l as [|x l IH]; simpl; intros Hnd; [constructor|].
  inversion Hnd as [|? ? Hx Hl]; subst.
  destruct (p x); simpl; [assumption|].
  constructor; [|now apply IH].
  intros Hin. apply Hx. clear - Hin.
  induction l as [|y l IH]; simpl in *; [contradiction|].
  destruct (p y); simpl in *; [now right|].
  destruct Hin as [Hin|Hin]; [now left | right; now apply IH].
Qed.

Lemma step_unique_entry_ids (r : Request) (w : World) :
  inserted_id_fresh r w -> unique_entry_ids w -> unique_entry_ids (step r w).
Proof.
  unfold unique_entry_ids. intros Hfresh Hw.
  destruct r; simpl in *; run_handler;
    repeat match goal with
      | |- context [List.find ?p ?l] => destruct (List.find p l); simpl
      | |- context [ObjectId ?s] => destruct (ObjectId s); simpl
      | |- context [negb ?b] => destruct b; simpl
      | |- context [build_update_data ?z] =>
          destruct (build_update_data z); simpl
      | |- context [existsb ?p ?l] => destruct (existsb p l); simpl
      end;
    try assumption;
    try (rewrite map_update_first; [assumption | intros; apply apply_set_id]);
    try (now apply NoDup_map_remove_first).
  rewrite map_app. simpl. apply List.NoDup_app.
  - assumption.
  - repeat constructor. intros [].
  - intros x Hx [<-|[]]. contradiction.
Qed.

(** In every store the handlers build from the empty one, the generated
    ids being fresh, the ids of the entries are unique and the obligation
    of an entry is 0.025 times its amount. *)
Lemma reachable_invariants (w : World) :
  reachable w -> unique_entry_ids w /\ obligation_invariant w.
Proof.
  induction 1 as [|w r Hw [IHu IHo] Hfresh].
  - split; constructor.
  - split; [now apply step_unique_entry_ids | now apply step_obligation_invariant].
Qed.

End Properties.

(** * The properties on the sample store *)

(** The sample store is one the handlers build, with fresh ids. *)
Lemma sample_world_reachable : @reachable Sample.auth Sample.python Sample.world.
Proof.
  change Sample.world with (@run Sample.auth Sample.python Sample.requests empty_world).
  unfold Sample.requests, run. cbn [fold_left].
  repeat (apply reachable_step; [|simpl; intuition discriminate]).
  apply reachable_init.
Qed.

Lemma sample_unique_entry_ids : unique_entry_ids Sample.world.
Proof.
  unfold unique_entry_ids. simpl.
  repeat (constructor; [simpl; intuition discriminate|]). constructor.
Defined.

Lemma zakat_amount_is_rate_times_amount_witness :
  obligation_invariant
    (@step Sample.auth Sample.python
       (Req_update_zakat_entry Sample.entry1_hex Sample.revalue "amina@example.org")
       Sample.world)
  /\ exists resp e1 e1',
       fst (update_zakat_entry Sample.entry1_hex Sample.revalue
              "amina@example.org" Sample.world) = Ok resp
       /\ List.find (zakat_matches [Z_id (Oid Sample.entry1_hex)])
            (zakat_collection Sample.world) = Some e1
       /\ List.find (zakat_matches [Z_id (Oid Sample.entry1_hex)])
            (zakat_collection
               (snd (update_zakat_entry Sample.entry1_hex Sample.revalue
                       "amina@example.org" Sample.world))) = Some e1'
       /\ ZakatDoc.amount e1' = 400%float
       /\ ZakatDoc.zakat_amount e1' = (400 * 0.025)%float.
Proof.
  split.
  - apply (proj1 (proj2 (@zakat_amount_is_rate_times_amount Sample.auth
                           Sample.python))).
    unfold obligation_invariant. simpl. repeat constructor.
  - destruct (proj1 (proj2 (proj2 (proj2 (proj2
                (@zakat_amount_is_rate_times_amount Sample.auth Sample.python)))))
                Sample.entry1_hex Sample.revalue "amina@example.org"
                Sample.world Sample.amina_doc (Oid Sample.entry1_hex)
                Sample.entry1 400%float
                eq_refl eq_refl (or_introl eq_refl) eq_refl eq_refl eq_refl)
      as (resp & e1 & e1' & H1 & H2 & H3 & H4 & H5 & _).
    exists resp, e1, e1'. repeat split; assumption.
Defined.

Lemma statistics_totals_and_breakdown_witness :
  fst (@get_zakat_statistics Sample.python "amina@example.org" Sample.world)
  = Ok (@calculate_statistics Sample.python
          (List.filter (owned_by Sample.amina_doc) (zakat_collection Sample.world))).
Proof.
  apply (proj1 (proj2 (proj2 (proj2
           (@statistics_totals_and_breakdown Sample.python))))).
  reflexivity.
Defined.

(** C3, the claim on the code: a creation request with the amount -100
    passes validation, the obligation -2.5 is calculated on it and the entry
    is stored with the negative amount. *)
Lemma negative_amount_entry_is_created :
  PrimFloat.ltb (-100) 0 = true
  /\ ZakatCreate.validate Sample.negative_body
     = Some (ZakatCreate.Build (-100) "Cash" None None)
  /\ fst (create_zakat_entry 50250 51750 (Oid "65b000000000000000000005")
            (ZakatCreate.Build (-100) "Cash" None None) "amina@example.org"
            Sample.world)
     = Ok (ZakatResponse.Build "65b000000000000000000005" (-100) "Cash" None
             50250 (-2.5) "65a000000000000000000001")
  /\ zakat_collection
       (snd (create_zakat_entry 50250 51750 (Oid "65b000000000000000000005")
               (ZakatCreate.Build (-100) "Cash" None None) "amina@example.org"
               Sample.world))
     = (zakat_collection Sample.world
        ++ [ZakatDoc.Build (Oid "65b000000000000000000005") (-100) "Cash" None
              50000 (-2.5) "65a000000000000000000001" 51000])%list.
Proof. repeat split; vm_compute; reflexivity. Qed.

Lemma creation_accepts_any_amount_witness :
  exists zakat,
    ZakatCreate.validate Sample.negative_body = Some zakat
    /\ ZakatCreate.amount zakat = (-100)%float
    /\ forall d cr i email w user,
         current_user email w = Some user ->
         exists resp doc,
           fst (create_zakat_entry d cr i zakat email w) = Ok resp
           /\ ZakatResponse.amount resp = (-100)%float
           /\ ZakatResponse.zakat_amount resp = (-100 * 0.025)%float
           /\ zakat_collection (snd (create_zakat_entry d cr i zakat email w))
              = (zakat_collection w ++ [doc])%list
           /\ ZakatDoc.amount doc = (-100)%float
           /\ ZakatDoc.zakat_amount doc = (-100 * 0.025)%float
           /\ owned_by user doc = true.
Proof.
  apply (creation_accepts_any_amount Sample.negative_body (-100)%float "Cash");
    reflexivity.
Defined.




Lemma delete_zakat_entry_outcomes_witness :
  fst (delete_zakat_entry Sample.entry1_hex "amina@example.org" Sample.world)
  = Ok tt
  /\ fst (delete_zakat_entry Sample.entry1_hex "amina@example.org"
            (snd (delete_zakat_entry Sample.entry1_hex "amina@example.org"
                    Sample.world)))
     = Raise zakat_entry_not_found.
Proof.
  pose proof
    (proj1 (delete_zakat_entry_outcomes Sample.entry1_hex "amina@example.org"
              Sample.world (Oid Sample.entry1_hex) eq_refl)
       Sample.amina_doc Sample.entry1 sample_unique_entry_ids eq_refl
       (or_introl eq_refl) eq_refl eq_refl) as H.
  split; [exact (proj1 H) | exact (proj1 (proj2 (proj2 (proj2 H))))].
Defined.

Lemma get_zakat_entries_owned_sorted_witness :
  exists entries : list ZakatResponse.t,
    fst (get_zakat_entries "amina@example.org" Sample.world) = Ok entries
    /\ Permutation entries
         (map ZakatDoc.response
            (List.filter (owned_by Sample.amina_doc)
               (zakat_collection Sample.world)))
    /\ StronglySorted response_not_older entries.
Proof.
  pose proof (get_zakat_entries_owned_sorted "amina@example.org" Sample.world)
    as (Hsome & Hlist & _).
  destruct (Hsome Sample.amina_doc eq_refl) as (entries & Hok).
  destruct (Hlist entries Hok) as (user & Hu & Hperm & Hsorted & _).
  injection Hu as <-.
  exists entries. repeat split; assumption.
Defined.

Lemma login_outcomes_witness :
  @login Sample.auth
    (OAuth2PasswordRequestForm.Build "amina@example.org" "wrong") Sample.world
  = @login Sample.auth
      (OAuth2PasswordRequestForm.Build "ghost@example.org" "wrong") Sample.world
  /\ fst (@login Sample.auth
            (OAuth2PasswordRequestForm.Build "amina@example.org" "s3cret")
            Sample.world)
     = Ok (Token.Build "token:amina@example.org" "bearer").
Proof.
  split.
  - rewrite (proj1 (proj2 (@login_outcomes Sample.auth))
               (OAuth2PasswordRequestForm.Build "amina@example.org" "wrong")
               Sample.world Sample.amina_doc eq_refl eq_refl).
    rewrite (proj1 (@login_outcomes Sample.auth)
               (OAuth2PasswordRequestForm.Build "ghost@example.org" "wrong")
               Sample.world eq_refl).
    reflexivity.
  - exact (proj1 (proj1 (proj2 (proj2 (@login_outcomes Sample.auth)))
                    (OAuth2PasswordRequestForm.Build "amina@example.org" "s3cret")
                    Sample.world Sample.amina_doc eq_refl eq_refl)).
Defined.

Lemma register_outcomes_witness :
  exists err,
    fst (@register Sample.auth 60750 (Oid "65a000000000000000000003") "salt3"
           (UserCreate.Build "amina2" "amina@example.org" "pw" "Another Amina")
           Sample.world)
    = Raise err
    /\ Conflict err
    /\ users_collection
         (snd (@register Sample.auth 60750 (Oid "65a000000000000000000003") "salt3"
                 (UserCreate.Build "amina2" "amina@example.org" "pw" "Another Amina")
                 Sample.world))
       = users_collection Sample.world.
Proof.
  apply (proj1 (@register_outcomes Sample.auth 60750 (Oid "65a000000000000000000003")
                  "salt3"
                  (UserCreate.Build "amina2" "amina@example.org" "pw" "Another Amina")
                  Sample.world)).
  exists Sample.amina_doc. split; [simpl; left; reflexivity | left; reflexivity].
Defined.

Lemma entry_operations_need_the_user_witness :
  fails_user_not_found
    (@get_zakat_statistics Sample.python "ghost@example.org") Sample.world
  /\ fails_user_not_found
       (delete_zakat_entry Sample.entry1_hex "ghost@example.org") Sample.world.
Proof.
  pose proof (@entry_operations_need_the_user Sample.python
                "ghost@example.org" Sample.world eq_refl) as H.
  split.
  - exact (proj1 (proj2 (proj2 (proj2 (proj2 (proj2 H)))))).
  - exact (proj1 (proj2 (proj2 (proj2 (proj2 H)))) Sample.entry1_hex).
Defined.

(** * Further properties of the handlers *)

(** ** More on lists and lookups *)

Lemma find_app_none {A} (p : A -> bool) (l l' : list A) :
  List.find p l = None -> List.find p (l ++ l') = List.find p l'.
Proof.
  induction l as [|x l IH]; simpl; [reflexivity|].
  destruct (p x); [discriminate | exact IH].
Qed.

Lemma find_app_some {A} (p : A -> bool) (l l' : list A) (x : A) :
  List.find p l = Some x -> List.find p (l ++ l') = Some x.
Proof.
  induction l as [|y l IH]; simpl; [discriminate|].
  destruct (p y); [trivial | exact IH].
Qed.

Lemma NoDup_map_snoc {A B} (g : A -> B) (l : list A) (x : A) :
  List.NoDup (map g l) -> (forall y, In y l -> g y <> g x) ->
  List.NoDup (map g (l ++ [x])).
Proof.
  intros Hnd Hx. rewrite map_app. apply List.NoDup_app.
  - exact Hnd.
  - simpl. constructor; [intros [] | constructor].
  - intros b Hb [<-|[]]. apply in_map_iff in Hb.
    destruct Hb as (y & Hy & Hin). now apply (Hx y).
Qed.

Lemma NoDup_map_eq {A B} (g : A -> B) (l : list A) (x y : A) :
  List.NoDup (map g l) -> In x l -> In y l -> g x = g y -> x = y.
Proof.
  induction l as [|z l IH]; simpl; intros Hnd Hx Hy Hg; [contradiction|].
  inversion Hnd as [|? ? Hz Hl]; subst.
  destruct Hx as [<-|Hx], Hy as [<-|Hy]; auto.
  - exfalso. apply Hz. rewrite Hg. now apply in_map.
  - exfalso. apply Hz. rewrite <- Hg. now apply in_map.
Qed.

Lemma find_email_none (email : string) (l : list UserDoc.t) :
  List.find (user_matches [U_email email]) l = None ->
  forall u, In u l -> UserDoc.email u <> email.
Proof.
  intros Hf u Hin Heq. apply (find_none _ _ Hf) in Hin.
  apply user_matches_email in Heq. congruence.
Qed.

Lemma find_username_none (username : string) (l : list UserDoc.t) :
  List.find (user_matches [U_username username]) l = None ->
  forall u, In u l -> UserDoc.username u <> username.
Proof.
  intros Hf u Hin Heq. apply (find_none _ _ Hf) in Hin.
  apply user_matches_username in Heq. congruence.
Qed.

Lemma update_first_idem {A} (p : A -> bool) (f : A -> A) (l : list A) :
  (forall x, p (f x) = p x) -> (forall x, f (f x) = f x) ->
  update_first p f (update_first p f l) = update_first p f l.
Proof.
  intros Hp Hf. induction l as [|x l IH]; simpl; [reflexivity|].
  destruct (p x) eqn:Hx; simpl.
  - now rewrite Hp, Hx, Hf.
  - now rewrite Hx, IH.
Qed.

Lemma existsb_update_first {A} (p q : A -> bool) (f : A -> A) (l : list A) :
  (forall x, q (f x) = q x) -> existsb q (update_first p f l) = existsb q l.
Proof.
  intros Hq. induction l as [|x l IH]; simpl; [reflexivity|].
  destruct (p x); simpl; [now rewrite Hq | now rewrite IH].
Qed.

Lemma existsb_find {A} (p : A -> bool) (l : list A) :
  existsb p l = true <-> exists x, List.find p l = Some x.
Proof.
  induction l as [|y l IH]; simpl.
  - split; [discriminate | intros [x Hx]; discriminate Hx].
  - destruct (p y); simpl; [split; eauto | exact IH].
Qed.

Lemma In_update_first {A} (p : A -> bool) (f : A -> A) (l : list A) (x : A) :
  List.find p l = Some x -> In (f x) (update_first p f l).
Proof.
  induction l as [|y l IH]; simpl; [discriminate|].
  destruct (p y); [intros [= ->]; now left | intros Hf; right; now apply IH].
Qed.

Lemma updated_entry_idem (zakat : ZakatUpdate.t) (e : ZakatDoc.t) :
  updated_entry zakat (updated_entry zakat e) = updated_entry zakat e.
Proof. destruct zakat as [[a|] [c|] [d|] [t|]], e; reflexivity. Qed.

(** Cutting to the millisecond twice is cutting once. *)
Lemma bson_datetime_idem (d : datetime) :
  bson_datetime (bson_datetime d) = bson_datetime d.
Proof.
  unfold bson_datetime. f_equal. rewrite Z.mul_comm. now apply Z.div_mul.
Qed.

Lemma apply_set_identity (update_data : list SetField) (e : ZakatDoc.t) :
  entry_identity (apply_set update_data e) = entry_identity e.
Proof.
  unfold apply_set. revert e.
  induction update_data as [|s0 l IH]; intros e; simpl; [reflexivity|].
  rewrite IH. now destruct e, s0.
Qed.

Lemma str_inj (a b : ObjectId_t) : str a = str b -> a = b.
Proof. destruct a, b. simpl. congruence. Qed.

Lemma owned_by_other (user other : UserDoc.t) (e : ZakatDoc.t) :
  UserDoc._id user <> UserDoc._id other ->
  owned_by user e = true -> owned_by other e = false.
Proof.
  intros Hne Hown. apply owned_by_true in Hown.
  destruct (owned_by other e) eqn:Ho; [|reflexivity].
  apply owned_by_true in Ho. exfalso. apply Hne, str_inj. congruence.
Qed.

Lemma filter_remove_first {A} (p q : A -> bool) (l : list A) :
  (forall x, In x l -> p x = true -> q x = false) ->
  List.filter q (remove_first p l) = List.filter q l.
Proof.
  induction l as [|x l IH]; simpl; intros Hpq; [reflexivity|].
  destruct (p x) eqn:Hx.
  - now rewrite (Hpq x (or_introl eq_refl) Hx).
  - simpl. rewrite IH; [reflexivity|]. intros y Hy. apply Hpq. now right.
Qed.

Lemma filter_update_first {A} (p q : A -> bool) (f : A -> A) (l : list A) :
  (forall x, In x l -> p x = true -> q x = false /\ q (f x) = false) ->
  List.filter q (update_first p f l) = List.filter q l.
Proof.
  induction l as [|x l IH]; simpl; intros Hpq; [reflexivity|].
  destruct (p x) eqn:Hx; simpl.
  - destruct (Hpq x (or_introl eq_refl) Hx) as [-> ->]. reflexivity.
  - rewrite IH; [reflexivity|]. intros y Hy. apply Hpq. now right.
Qed.

Lemma apply_set_user_id (update_data : list SetField) (e : ZakatDoc.t) :
  ZakatDoc.user_id (apply_set update_data e) = ZakatDoc.user_id e.
Proof.
  pose proof (apply_set_identity update_data e) as H.
  unfold entry_identity in H. now injection H.
Qed.

(** ** The counts of the breakdown *)

Lemma breakdown_count_insert (m : gmap string CategoryStats.t) (c : string)
    (s : CategoryStats.t) :
  m !! c = None ->
  breakdown_count (<[c := s]> m) = CategoryStats.count s + breakdown_count m.
Proof.
  intros Hc. unfold breakdown_count.
  rewrite map_fold_insert_L; [reflexivity | | exact Hc].
  intros. lia.
Qed.

Lemma breakdown_count_step (m : gmap string CategoryStats.t) (e : ZakatDoc.t) :
  breakdown_count (category_stats_step m e) = breakdown_count m + 1.
Proof.
  unfold category_stats_step.
  destruct (m !! ZakatDoc.category e) as [s|] eqn:Hc.
  - assert (Halter :
      alter (count_entry e) (ZakatDoc.category e) m
      = <[ZakatDoc.category e := count_entry e s]>
          (delete (ZakatDoc.category e) m)).
    { rewrite <- alter_insert_eq. now rewrite insert_delete_id. }
    assert (Hm :
      breakdown_count m
      = CategoryStats.count s
        + breakdown_count (delete (ZakatDoc.category e) m)).
    { rewrite <- (breakdown_count_insert _ (ZakatDoc.category e))
        by apply lookup_delete_eq.
      now rewrite insert_delete_id. }
    rewrite Halter, Hm, breakdown_count_insert by apply lookup_delete_eq.
    unfold count_entry. simpl. lia.
  - rewrite alter_insert_eq, breakdown_count_insert by exact Hc.
    unfold count_entry, zero_stats. simpl. lia.
Qed.

Lemma breakdown_count_fold (entries : list ZakatDoc.t)
    (m : gmap string CategoryStats.t) :
  breakdown_count (fold_left category_stats_step entries m)
  = breakdown_count m + Z.of_nat (length entries).
Proof.
  revert m. induction entries as [|e entries IH]; intros m.
  - simpl. lia.
  - cbn [fold_left length]. rewrite IH, breakdown_count_step. lia.
Qed.

(** Splits a handler along its lookups and tests. *)
Ltac case_handler :=
  repeat match goal with
    | |- context [List.find ?p ?l] => destruct (List.find p l) eqn:?; simpl
    | |- context [ObjectId ?s] => destruct (ObjectId s) eqn:?; simpl
    | |- context [negb ?b] => destruct b eqn:?; simpl
    | |- context [build_update_data ?z] =>
        destruct (build_update_data z) eqn:?; simpl
    | |- context [existsb ?p ?l] => destruct (existsb p l) eqn:?; simpl
    end.

Section Compositions.

Context {auth : AuthModule} {python : Interpreter}.

(** ** Registration, login and the current user *)

(** What a successful registration has found and done. *)
Lemma register_ok_inv (utcnow : datetime) (inserted_id : ObjectId_t)
    (salt : string) (user : UserCreate.t) (w : World) (resp : UserResponse.t) :
  fst (register utcnow inserted_id salt user w) = Ok resp ->
  List.find (user_matches [U_email (UserCreate.email user)]) (users_collection w)
  = None
  /\ List.find (user_matches [U_username (UserCreate.username user)])
       (users_collection w) = None
  /\ resp = UserResponse.Build (str inserted_id) (UserCreate.username user)
              (UserCreate.email user) (UserCreate.full_name user) utcnow
  /\ users_collection (snd (register utcnow inserted_id salt user w))
     = (users_collection w
        ++ [UserDoc.Build inserted_id (UserCreate.username user)
              (UserCreate.email user)
              (get_password_hash salt (UserCreate.password user))
              (UserCreate.full_name user) (bson_datetime utcnow)])%list
  /\ zakat_collection (snd (register utcnow inserted_id salt user w))
     = zakat_collection w.
Proof.
  run_handler.
  destruct (List.find (user_matches [U_email _]) _); simpl; [discriminate|].
  destruct (List.find (user_matches [U_username _]) _); simpl; [discriminate|].
  intros [= <-]. repeat split.
Qed.

(** A stored user with the email makes the registration fail. *)
Lemma register_email_taken (utcnow : datetime) (inserted_id : ObjectId_t)
    (salt : string) (user : UserCreate.t) (w : World) (u : UserDoc.t) :
  List.find (user_matches [U_email (UserCreate.email user)]) (users_collection w)
  = Some u ->
  register utcnow inserted_id salt user w
  = (Raise (MkHTTPException HTTP_400_BAD_REQUEST "Email already registered" []),
     record_op Users_find_one w).
Proof. intros Hf. run_handler. now rewrite Hf. Qed.

(** X1. The identity lookup after a successful registration, for the
    registered email, answers with the record the registration returned, its
    creation time cut to the millisecond: the registration answers from the
    clock, the lookup from the store. *)
Theorem register_then_get_current_user (utcnow : datetime)
    (inserted_id : ObjectId_t) (salt : string) (user : UserCreate.t)
    (w : World) (resp : UserResponse.t) :
  fst (register utcnow inserted_id salt user w) = Ok resp ->
  fst (get_current_user (UserCreate.email user)
         (snd (register utcnow inserted_id salt user w)))
  = Ok (UserResponse.Build (UserResponse.id resp) (UserResponse.username resp)
          (UserResponse.email resp) (UserResponse.full_name resp)
          (bson_datetime (UserResponse.created_at resp)))
  /\ UserResponse.created_at resp = utcnow.
Proof.
  intros Hok. apply register_ok_inv in Hok.
  destruct Hok as (He & _ & -> & Husers & _).
  unfold get_current_user, bind, users_find_one. simpl.
  rewrite Husers, (find_app_none _ _ _ He). simpl.
  rewrite String.eqb_refl. split; reflexivity.
Qed.

(** X2. A login after a successful registration, with the registered email
    and any password, is decided by the verification of that password
    against the hash the registration stored: a token for the email when it
    verifies, the 401 otherwise. *)
Theorem register_then_login (utcnow : datetime) (inserted_id : ObjectId_t)
    (salt : string) (user : UserCreate.t) (w : World) (resp : UserResponse.t)
    (password : string) :
  fst (register utcnow inserted_id salt user w) = Ok resp ->
  fst (login (OAuth2PasswordRequestForm.Build (UserCreate.email user) password)
         (snd (register utcnow inserted_id salt user w)))
  = if verify_password password
         (get_password_hash salt (UserCreate.password user))
    then Ok (Token.Build
               (create_access_token (UserCreate.email user)
                  ACCESS_TOKEN_EXPIRE_MINUTES)
               "bearer")
    else Raise incorrect_email_or_password.
Proof.
  intros Hok. apply register_ok_inv in Hok.
  destruct Hok as (He & _ & _ & Husers & _).
  unfold login, bind, users_find_one. simpl.
  rewrite Husers, (find_app_none _ _ _ He). simpl.
  rewrite String.eqb_refl. simpl.
  now destruct (verify_password _ _).
Qed.

(** X3. After a successful registration, a registration with the same
    email or the same username fails with the 400 of the duplicate, whatever
    its other fields, and stores nothing. *)
Theorem register_twice_conflict (utcnow : datetime) (inserted_id : ObjectId_t)
    (salt : string) (user : UserCreate.t) (w : World) (resp : UserResponse.t)
    (utcnow' : datetime) (inserted_id' : ObjectId_t) (salt' : string)
    (user' : UserCreate.t) :
  fst (register utcnow inserted_id salt user w) = Ok resp ->
  UserCreate.email user' = UserCreate.email user
  \/ UserCreate.username user' = UserCreate.username user ->
  let w1 := snd (register utcnow inserted_id salt user w) in
  exists err,
    fst (register utcnow' inserted_id' salt' user' w1) = Raise err
    /\ Conflict err
    /\ users_collection (snd (register utcnow' inserted_id' salt' user' w1))
       = users_collection w1.
Proof.
  intros Hok Hdup w1. apply register_ok_inv in Hok.
  destruct Hok as (_ & _ & _ & Husers & _). fold w1 in Husers.
  set (doc := UserDoc.Build inserted_id (UserCreate.username user)
                (UserCreate.email user)
                (get_password_hash salt (UserCreate.password user))
                (UserCreate.full_name user) (bson_datetime utcnow)) in *.
  assert (Hin : In doc (users_collection w1)).
  { rewrite Husers. apply in_or_app. right. now left. }
  destruct (List.find (user_matches [U_email (UserCreate.email user')])
              (users_collection w1)) as [u|] eqn:He.
  { rewrite (register_email_taken _ _ _ _ _ u He). simpl.
    eexists. split; [reflexivity|]. split; [|reflexivity].
    split; [reflexivity | now left]. }
  destruct (List.find (user_matches [U_username (UserCreate.username user')])
              (users_collection w1)) as [u|] eqn:Hn.
  { run_handler. rewrite He. simpl. rewrite Hn. simpl.
    eexists. split; [reflexivity|]. split; [|reflexivity].
    split; [reflexivity | now right]. }
  exfalso. apply (find_none _ _ He) in Hin as He'.
  apply (find_none _ _ Hn) in Hin as Hn'.
  destruct Hdup as [Hdup|Hdup].
  - assert (Ht : user_matches [U_email (UserCreate.email user')] doc = true)
      by (apply user_matches_email; now rewrite Hdup).
    congruence.
  - assert (Ht : user_matches [U_username (UserCreate.username user')] doc = true)
      by (apply user_matches_username; now rewrite Hdup).
    congruence.
Qed.

(** ** The user collection *)

(** A request leaves the user collection as it is or appends one user whose
    email and username no stored user has. *)
Lemma step_users (r : Request) (w : World) :
  users_collection (step r w) = users_collection w
  \/ exists doc,
       users_collection (step r w) = (users_collection w ++ [doc])%list
       /\ forall u, In u (users_collection w) ->
                    UserDoc.email u <> UserDoc.email doc
                    /\ UserDoc.username u <> UserDoc.username doc.
Proof.
  destruct r; simpl; run_handler; case_handler; try (left; reflexivity).
  right. eexists. split; [reflexivity|]. simpl. intros u Hin. split.
  - eapply find_email_none; eassumption.
  - eapply find_username_none; eassumption.
Qed.

Lemma step_current_user (r : Request) (w : World) (email : string)
    (u : UserDoc.t) :
  current_user email w = Some u -> current_user email (step r w) = Some u.
Proof.
  unfold current_user. intros Hu.
  destruct (step_users r w) as [->|(doc & -> & _)]; [exact Hu|].
  now apply find_app_some.
Qed.

Lemma run_current_user (rs : list Request) (w : World) (email : string)
    (u : UserDoc.t) :
  current_user email w = Some u -> current_user email (run rs w) = Some u.
Proof.
  revert w. induction rs as [|r rs IH]; intros w Hu; simpl; [exact Hu|].
  apply IH. now apply step_current_user.
Qed.

Lemma step_unique_users (r : Request) (w : World) :
  unique_emails w /\ unique_usernames w ->
  unique_emails (step r w) /\ unique_usernames (step r w).
Proof.
  unfold unique_emails, unique_usernames. intros [He Hn].
  destruct (step_users r w) as [->|(doc & -> & Hnew)]; [now split|].
  split; apply NoDup_map_snoc; try assumption; intros y Hy; now apply Hnew.
Qed.

Lemma run_unique_users (rs : list Request) (w : World) :
  unique_emails w /\ unique_usernames w ->
  unique_emails (run rs w) /\ unique_usernames (run rs w).
Proof.
  revert w. induction rs as [|r rs IH]; intros w Hw; simpl; [exact Hw|].
  apply IH. now apply step_unique_users.
Qed.

(** X4. Emails and usernames are unique among the stored users: in every
    store the handlers build from the empty one, and after every request on
    a store where they are. In such a store the lookup by email finds the
    one user that has the email. *)
Theorem users_are_unique :
  (forall rs : list Request,
      unique_emails (run rs empty_world) /\ unique_usernames (run rs empty_world))
  /\ (forall (r : Request) (w : World),
        unique_emails w /\ unique_usernames w ->
        unique_emails (step r w) /\ unique_usernames (step r w))
  /\ (forall (w : World) (u : UserDoc.t),
        unique_emails w -> In u (users_collection w) ->
        current_user (UserDoc.email u) w = Some u).
Proof.
  split; [|split].
  - intros rs. apply run_unique_users. split; constructor.
  - exact step_unique_users.
  - intros w u Hnd Hin. unfold current_user.
    destruct (find_is_Some (user_matches [U_email (UserDoc.email u)])
                (users_collection w) u Hin) as [y Hy].
    { now apply user_matches_email. }
    rewrite Hy. f_equal. apply find_some in Hy. destruct Hy as [Hiny Hm].
    apply user_matches_email in Hm.
    now apply (NoDup_map_eq UserDoc.email (users_collection w)).
Qed.

(** X5. The handlers never remove or change a user. A user found by an
    email is found by it after any further requests; so after a successful
    login the identity lookup for the submitted email keeps answering with
    that user, and no request made for that email is answered with the 404
    of the missing user. *)
Theorem user_persists :
  (forall (rs : list Request) (w : World) (email : string) (u : UserDoc.t),
      current_user email w = Some u -> current_user email (run rs w) = Some u)
  /\ (forall form_data (w : World) (token : Token.t) (rs : list Request),
        fst (login form_data w) = Ok token ->
        exists u,
          UserDoc.email u = OAuth2PasswordRequestForm.username form_data
          /\ fst (get_current_user
                    (OAuth2PasswordRequestForm.username form_data) (run rs w))
             = Ok (UserDoc.response u))
  /\ (forall (rs : list Request) (w : World) (email : string) (u : UserDoc.t)
             (r : Request),
        current_user email w = Some u ->
        caller r = Some email ->
        fst (serve r (run rs w)) <> Some user_not_found).
Proof.
  split; [|split].
  - exact run_current_user.
  - intros form_data w token rs Hok.
    destruct (current_user (OAuth2PasswordRequestForm.username form_data) w)
      as [u|] eqn:Hu.
    + exists u. split; [now apply (current_user_email _ w)|].
      apply (run_current_user rs) in Hu. unfold current_user in Hu.
      unfold get_current_user, bind, users_find_one. simpl. now rewrite Hu.
    + exfalso. unfold current_user in Hu. revert Hok. run_handler.
      now rewrite Hu.
  - intros rs w email u r Hu Hcaller.
    apply (run_current_user rs) in Hu. unfold current_user in Hu.
    destruct r; simpl in Hcaller; try discriminate Hcaller;
      injection Hcaller as ->; unfold serve; run_handler; rewrite Hu; simpl;
      case_handler; discriminate.
Qed.

(** ** Failed requests *)

(** X6. A request that is answered with an exception has changed neither
    collection, and the exception is a 400, a 401 or a 404: in particular
    the second lookup of an update always finds the entry. *)
Theorem failed_request_changes_nothing (r : Request) (w : World)
    (err : HTTPException) :
  fst (serve r w) = Some err ->
  users_collection (snd (serve r w)) = users_collection w
  /\ zakat_collection (snd (serve r w)) = zakat_collection w
  /\ In (status_code err)
       [HTTP_400_BAD_REQUEST; HTTP_401_UNAUTHORIZED; HTTP_404_NOT_FOUND].
Proof.
  destruct r; unfold serve; run_handler; case_handler;
    try discriminate;
    try (intros [= <-]; simpl; repeat split; auto; fail).
  - exfalso.
    match goal with
    | H : List.find (zakat_matches [Z_id _; Z_user_id _]) _ = Some _ |- _ =>
        destruct (find_id_of_find_owned _ _ _ _ H) as [e1 He1]
    end.
    congruence.
  - exfalso.
    match goal with
    | H : List.find (zakat_matches [Z_id _; Z_user_id _]) _ = Some _ |- _ =>
        destruct (find_id_of_find_owned _ _ _ _ H) as [e1 He1]
    end.
    match goal with
    | H : List.find _ (update_first _ ?f _) = None |- _ =>
        rewrite find_update_first, He1 in H;
        [simpl in H; discriminate H
        | intros x; unfold zakat_matches, zakat_cond; cbn [forallb];
          now rewrite (apply_set_id _ x)]
    end.
  - intros [= <-].
    match goal with
    | H : existsb _ _ = false |- _ => rewrite (remove_first_none _ _ H)
    end.
    simpl. repeat split; auto.
Qed.

(** ** Creating, reading and deleting an entry *)

Lemma create_ok_inv (d c : datetime) (i : ObjectId_t) (zakat : ZakatCreate.t)
    (email : string) (w : World) (resp : ZakatResponse.t) :
  fst (create_zakat_entry d c i zakat email w) = Ok resp ->
  exists user,
    current_user email w = Some user
    /\ resp = ZakatDoc.response (new_entry d c i zakat user)
    /\ zakat_collection (snd (create_zakat_entry d c i zakat email w))
       = (zakat_collection w ++ [bson_entry (new_entry d c i zakat user)])%list
    /\ users_collection (snd (create_zakat_entry d c i zakat email w))
       = users_collection w.
Proof.
  unfold current_user. run_handler.
  destruct (List.find _ (users_collection w)) as [user|]; simpl; [|discriminate].
  intros [= <-]. exists user. repeat split.
Qed.

Lemma new_entry_matches (d c : datetime) (i : ObjectId_t)
    (zakat : ZakatCreate.t) (user : UserDoc.t) :
  zakat_matches [Z_id i; Z_user_id (str (UserDoc._id user))]
    (bson_entry (new_entry d c i zakat user)) = true.
Proof. now apply zakat_matches_id_user. Qed.

(** No entry of a fresh id matches a filter on that id. *)
Lemma fresh_id_no_match (i : ObjectId_t) (uid : string) (l : list ZakatDoc.t) :
  ~ In i (map ZakatDoc._id l) ->
  List.find (zakat_matches [Z_id i; Z_user_id uid]) l = None
  /\ existsb (zakat_matches [Z_id i; Z_user_id uid]) l = false.
Proof.
  intros Hfresh.
  assert (Hno : forall e, In e l -> zakat_matches [Z_id i; Z_user_id uid] e = false).
  { intros e Hin.
    destruct (zakat_matches [Z_id i; Z_user_id uid] e) eqn:Hm; [|reflexivity].
    apply zakat_matches_id_user in Hm. destruct Hm as [<- _].
    exfalso. apply Hfresh. now apply in_map. }
  split.
  - destruct (List.find _ l) as [e|] eqn:Hf; [|reflexivity].
    apply find_some in Hf. destruct Hf as [Hin Hm]. rewrite (Hno e Hin) in Hm.
    discriminate Hm.
  - destruct (existsb _ l) eqn:Hex; [|reflexivity].
    apply existsb_exists in Hex. destruct Hex as (e & Hin & Hm).
    rewrite (Hno e Hin) in Hm. discriminate Hm.
Qed.

Lemma remove_first_snoc {A} (p : A -> bool) (l : list A) (x : A) :
  existsb p l = false -> p x = true -> remove_first p (l ++ [x]) = l.
Proof.
  induction l as [|y l IH]; simpl; intros Hl Hx; [now rewrite Hx|].
  destruct (p y); simpl in *; [discriminate|]. now rewrite IH.
Qed.

(** X7. An entry just created, under a fresh id in the form the driver
    prints, is read back by its creator under the returned id as the creation
    returned it, its date cut to the millisecond: the creation answers from
    the request and the clock, the read from the store. *)
Theorem create_then_get (d c : datetime) (i : ObjectId_t)
    (zakat : ZakatCreate.t) (email : string) (w : World)
    (resp : ZakatResponse.t) :
  canonical i ->
  ~ In i (map ZakatDoc._id (zakat_collection w)) ->
  fst (create_zakat_entry d c i zakat email w) = Ok resp ->
  fst (get_zakat_entry (ZakatResponse.id resp) email
         (snd (create_zakat_entry d c i zakat email w)))
  = Ok (ZakatResponse.Build (ZakatResponse.id resp) (ZakatResponse.amount resp)
          (ZakatResponse.category resp) (ZakatResponse.description resp)
          (bson_datetime (ZakatResponse.date resp))
          (ZakatResponse.zakat_amount resp) (ZakatResponse.user_id resp))
  /\ ZakatResponse.date resp
     = match ZakatCreate.date zakat with Some t => t | None => d end.
Proof.
  intros Hcan Hfresh Hok. apply create_ok_inv in Hok.
  destruct Hok as (user & Hu & -> & Hz & Husers).
  unfold current_user in Hu. simpl.
  unfold get_zakat_entry, bind, users_find_one, zakat_find_one. simpl.
  rewrite Husers, Hu. simpl. rewrite Hcan. simpl. rewrite Hz.
  destruct (fresh_id_no_match i (str (UserDoc._id user)) _ Hfresh) as [Hf _].
  rewrite (find_app_none _ _ _ Hf). simpl.
  rewrite oid_eqb_refl, String.eqb_refl. split; reflexivity.
Qed.

(** X8. Deleting an entry just created, under a fresh id in the form the
    driver prints, succeeds and gives back the entry collection as it was
    before the creation. *)
Theorem create_then_delete (d c : datetime) (i : ObjectId_t)
    (zakat : ZakatCreate.t) (email : string) (w : World)
    (resp : ZakatResponse.t) :
  canonical i ->
  ~ In i (map ZakatDoc._id (zakat_collection w)) ->
  fst (create_zakat_entry d c i zakat email w) = Ok resp ->
  let w1 := snd (create_zakat_entry d c i zakat email w) in
  fst (delete_zakat_entry (ZakatResponse.id resp) email w1) = Ok tt
  /\ zakat_collection (snd (delete_zakat_entry (ZakatResponse.id resp) email w1))
     = zakat_collection w
  /\ users_collection (snd (delete_zakat_entry (ZakatResponse.id resp) email w1))
     = users_collection w.
Proof.
  intros Hcan Hfresh Hok w1. apply create_ok_inv in Hok.
  destruct Hok as (user & Hu & -> & Hz & Husers).
  fold w1 in Hz, Husers. unfold current_user in Hu. simpl.
  unfold delete_zakat_entry, bind, users_find_one, zakat_delete_one. simpl.
  rewrite Husers, Hu. simpl. rewrite Hcan. simpl. rewrite Hz.
  destruct (fresh_id_no_match i (str (UserDoc._id user)) _ Hfresh) as [_ Hex].
  rewrite existsb_app, Hex. simpl.
  rewrite oid_eqb_refl, String.eqb_refl. simpl.
  repeat split; [|exact Husers].
  apply remove_first_snoc; [exact Hex | apply new_entry_matches].
Qed.

(** ** Updating an entry *)

Lemma update_ok_inv (zakat_id : string) (zakat : ZakatUpdate.t) (email : string)
    (w : World) (resp : ZakatResponse.t) :
  fst (update_zakat_entry zakat_id zakat email w) = Ok resp ->
  exists user oid e0 e1,
    current_user email w = Some user
    /\ ObjectId zakat_id = Some oid
    /\ List.find (zakat_matches [Z_id oid; Z_user_id (str (UserDoc._id user))])
         (zakat_collection w) = Some e0
    /\ List.find (zakat_matches [Z_id oid]) (zakat_collection w) = Some e1.
Proof.
  unfold current_user. intros Hok.
  destruct (List.find _ (users_collection w)) as [user|] eqn:Hu.
  2:{ revert Hok. run_handler. now rewrite Hu. }
  destruct (ObjectId zakat_id) as [oid|] eqn:Hoid.
  2:{ revert Hok. run_handler. rewrite Hu. simpl. now rewrite Hoid. }
  destruct (List.find
              (zakat_matches [Z_id oid; Z_user_id (str (UserDoc._id user))])
              (zakat_collection w)) as [e0|] eqn:H0.
  2:{ revert Hok. run_handler. rewrite Hu. simpl. rewrite Hoid. simpl.
      now rewrite H0. }
  destruct (find_id_of_find_owned _ _ _ _ H0) as [e1 H1].
  now exists user, oid, e0, e1.
Qed.

(** X9. An update is idempotent: repeating a successful update, on the
    store it has left, succeeds with the same response and changes
    nothing. *)
Theorem update_twice (zakat_id : string) (zakat : ZakatUpdate.t)
    (email : string) (w : World) (resp : ZakatResponse.t) :
  fst (update_zakat_entry zakat_id zakat email w) = Ok resp ->
  let w1 := snd (update_zakat_entry zakat_id zakat email w) in
  fst (update_zakat_entry zakat_id zakat email w1) = Ok resp
  /\ zakat_collection (snd (update_zakat_entry zakat_id zakat email w1))
     = zakat_collection w1
  /\ users_collection (snd (update_zakat_entry zakat_id zakat email w1))
     = users_collection w1.
Proof.
  intros Hok w1.
  destruct (update_ok_inv _ _ _ _ _ Hok) as (user & oid & e0 & e1 & Hu & Hoid & H0 & H1).
  destruct (update_found zakat_id zakat email w user oid e0 e1 Hu Hoid H0 H1)
    as (Hres & Hz & Husers).
  fold w1 in Hz, Husers.
  assert (Hu1 : current_user email w1 = Some user).
  { unfold current_user. rewrite Husers. exact Hu. }
  assert (H11 : List.find (zakat_matches [Z_id oid]) (zakat_collection w1)
                = Some (updated_entry zakat e1)).
  { rewrite Hz, find_update_first, H1; reflexivity. }
  assert (H01 : exists e, List.find
                  (zakat_matches [Z_id oid; Z_user_id (str (UserDoc._id user))])
                  (zakat_collection w1) = Some e).
  { apply existsb_find. rewrite Hz, existsb_update_first by reflexivity.
    apply existsb_find. now exists e0. }
  destruct H01 as [e01 H01].
  destruct (update_found zakat_id zakat email w1 user oid e01 _ Hu1 Hoid H01 H11)
    as (Hres1 & Hz1 & Husers1).
  rewrite Hres1, Hz1, Husers1, updated_entry_idem. repeat split.
  - congruence.
  - rewrite Hz. apply update_first_idem; [reflexivity|].
    intros x. apply updated_entry_idem.
Qed.

(** X10. With unique ids in the collection, reading an entry right after a
    successful update of it, by the same id and caller, returns what the
    update returned. *)
Theorem update_then_get (zakat_id : string) (zakat : ZakatUpdate.t)
    (email : string) (w : World) (resp : ZakatResponse.t) :
  unique_entry_ids w ->
  fst (update_zakat_entry zakat_id zakat email w) = Ok resp ->
  fst (get_zakat_entry zakat_id email
         (snd (update_zakat_entry zakat_id zakat email w)))
  = Ok resp.
Proof.
  intros Hnd Hok. unfold unique_entry_ids in Hnd.
  destruct (update_ok_inv _ _ _ _ _ Hok) as (user & oid & e0 & e1 & Hu & Hoid & H0 & H1).
  destruct (update_found zakat_id zakat email w user oid e0 e1 Hu Hoid H0 H1)
    as (Hres & Hz & Husers).
  set (w1 := snd (update_zakat_entry zakat_id zakat email w)) in *.
  assert (Hnd1 : List.NoDup (map ZakatDoc._id (zakat_collection w1))).
  { rewrite Hz, map_update_first; [exact Hnd | reflexivity]. }
  assert (H01 : exists e, List.find
                  (zakat_matches [Z_id oid; Z_user_id (str (UserDoc._id user))])
                  (zakat_collection w1) = Some e).
  { apply existsb_find. rewrite Hz, existsb_update_first by reflexivity.
    apply existsb_find. now exists e0. }
  destruct H01 as [e01 H01].
  assert (He01 : e01 = updated_entry zakat e1).
  { apply find_some in H01 as [Hin Hm].
    apply zakat_matches_id_user in Hm. destruct Hm as [Hid _].
    apply (unique_id_eq (zakat_collection w1)); try assumption.
    - rewrite Hz. now apply In_update_first.
    - simpl. apply find_some in H1 as [_ Hm1].
      apply zakat_matches_id in Hm1. congruence. }
  unfold current_user in Hu.
  unfold get_zakat_entry, bind, users_find_one, zakat_find_one. simpl.
  rewrite Husers, Hu. simpl. rewrite Hoid. simpl. rewrite H01. simpl.
  rewrite He01. congruence.
Qed.

(** X11. An update, whatever its outcome, leaves the identity of every
    entry (its id, its owner and its creation time), and the number and
    order of the entries, as they were. *)
Theorem update_keeps_identities (zakat_id : string) (zakat : ZakatUpdate.t)
    (email : string) (w : World) :
  map entry_identity
    (zakat_collection (snd (update_zakat_entry zakat_id zakat email w)))
  = map entry_identity (zakat_collection w).
Proof.
  run_handler. case_handler; try reflexivity;
    apply map_update_first; intros x; apply apply_set_identity.
Qed.

(** ** After a delete *)

Lemma delete_ok_inv (zakat_id email : string) (w : World) :
  fst (delete_zakat_entry zakat_id email w) = Ok tt ->
  exists user oid e,
    current_user email w = Some user
    /\ ObjectId zakat_id = Some oid
    /\ In e (zakat_collection w) /\ ZakatDoc._id e = oid
    /\ owned_by user e = true.
Proof.
  unfold current_user. run_handler.
  destruct (List.find _ (users_collection w)) as [user|]; simpl; [|discriminate].
  destruct (ObjectId zakat_id) as [oid|]; simpl; [|discriminate].
  destruct (existsb _ (zakat_collection w)) eqn:Hex; simpl; [|discriminate].
  intros _. apply existsb_exists in Hex. destruct Hex as (e & Hin & Hm).
  apply zakat_matches_id_user in Hm. destruct Hm as [Hid Hown].
  exists user, oid, e. repeat split; try assumption. now apply owned_by_true.
Qed.

(** X12. With unique ids in the collection, after a successful delete the
    entry is gone for its owner: reading it by the same id fails with the
    404 of a missing entry, and no entry of the listing has that id. *)
Theorem delete_then_gone (zakat_id email : string) (w : World) :
  unique_entry_ids w ->
  fst (delete_zakat_entry zakat_id email w) = Ok tt ->
  let w1 := snd (delete_zakat_entry zakat_id email w) in
  fst (get_zakat_entry zakat_id email w1) = Raise zakat_entry_not_found
  /\ exists oid entries,
       ObjectId zakat_id = Some oid
       /\ fst (get_zakat_entries email w1) = Ok entries
       /\ Forall (fun r => ZakatResponse.id r <> str oid) entries.
Proof.
  intros Hnd Hok w1.
  destruct (delete_ok_inv _ _ _ Hok) as (user & oid & e & Hu & Hoid & Hin & Hid & Hown).
  destruct (delete_owned zakat_id email w user oid e Hnd Hu Hoid Hin Hid Hown)
    as (_ & Hz & Husers).
  fold w1 in Hz, Husers.
  assert (Hu1 : current_user email w1 = Some user).
  { unfold current_user. rewrite Husers. exact Hu. }
  assert (Hgone : Forall (fun x => ZakatDoc._id x <> oid) (zakat_collection w1)).
  { rewrite Hz. apply filter_other_ids. }
  rewrite List.Forall_forall in Hgone.
  split.
  - unfold current_user in Hu1.
    unfold get_zakat_entry, bind, users_find_one, zakat_find_one. simpl.
    rewrite Hu1. simpl. rewrite Hoid. simpl.
    rewrite (find_not_owned oid user); [reflexivity|].
    intros x Hx Hxid. now destruct (Hgone x Hx).
  - exists oid. eexists. split; [exact Hoid|].
    rewrite (get_zakat_entries_of_user email w1 user Hu1). simpl.
    split; [reflexivity|].
    apply List.Forall_map, List.Forall_forall. intros x Hx Heq. simpl in Heq.
    apply str_inj in Heq.
    apply (Permutation_in _ (sort_date_desc_perm _)) in Hx.
    apply filter_In in Hx. destruct Hx as [Hx _]. now apply (Hgone x Hx).
Qed.

(** ** One user and the entries of another *)

Lemma get_zakat_statistics_of_user (email : string) (w : World)
    (user : UserDoc.t) :
  current_user email w = Some user ->
  fst (get_zakat_statistics email w)
  = Ok (calculate_statistics (List.filter (owned_by user) (zakat_collection w))).
Proof.
  intros Hu. unfold current_user in Hu. run_handler. rewrite Hu. simpl.
  do 2 f_equal. apply filter_ext. intros e. unfold zakat_matches, owned_by.
  simpl. apply andb_true_r.
Qed.

(** A request made for a user, or for no user, leaves the entries of any
    other user as they are. *)
Lemma step_other_entries (r : Request) (w : World) (other : UserDoc.t) :
  unique_entry_ids w ->
  (forall email user,
      caller r = Some email -> current_user email w = Some user ->
      UserDoc._id user <> UserDoc._id other) ->
  List.filter (owned_by other) (zakat_collection (step r w))
  = List.filter (owned_by other) (zakat_collection w).
Proof.
  unfold unique_entry_ids, current_user. intros Hnd Hcaller.
  destruct r; simpl in *; run_handler; case_handler; try reflexivity.
  - (* create *)
    rewrite List.filter_app. simpl.
    assert (Hne : UserDoc._id t <> UserDoc._id other) by (eapply Hcaller; eauto).
    rewrite (owned_by_other t other); [apply app_nil_r | exact Hne|].
    unfold owned_by. simpl. apply String.eqb_refl.
  - (* update, the second lookup having found the entry *)
    match goal with
    | H : List.find (zakat_matches [Z_id _; Z_user_id _]) _ = Some ?e0 |- _ =>
        apply find_some in H; destruct H as [Hin0 Hm0];
        apply zakat_matches_id_user in Hm0; destruct Hm0 as [Hid0 Hu0]
    end.
    assert (Hne : UserDoc._id t <> UserDoc._id other) by (eapply Hcaller; eauto).
    apply filter_update_first. intros x Hx Hm.
    apply zakat_matches_id in Hm.
    assert (Hx0 : x = t0).
    { apply (unique_id_eq (zakat_collection w)); try assumption. congruence. }
    subst x.
    assert (Hown : owned_by t t0 = true) by now apply owned_by_true.
    split; [now apply (owned_by_other t other)|].
    apply (owned_by_other t other); [exact Hne|].
    apply owned_by_true.
    now rewrite apply_set_user_id.
  - (* update, the second lookup having found nothing *)
    match goal with
    | H : List.find (zakat_matches [Z_id _; Z_user_id _]) _ = Some ?e0 |- _ =>
        apply find_some in H; destruct H as [Hin0 Hm0];
        apply zakat_matches_id_user in Hm0; destruct Hm0 as [Hid0 Hu0]
    end.
    assert (Hne : UserDoc._id t <> UserDoc._id other) by (eapply Hcaller; eauto).
    apply filter_update_first. intros x Hx Hm.
    apply zakat_matches_id in Hm.
    assert (Hx0 : x = t0).
    { apply (unique_id_eq (zakat_collection w)); try assumption. congruence. }
    subst x.
    assert (Hown : owned_by t t0 = true) by now apply owned_by_true.
    split; [now apply (owned_by_other t other)|].
    apply (owned_by_other t other); [exact Hne|].
    apply owned_by_true.
    now rewrite apply_set_user_id.
  - (* delete *)
    assert (Hne : UserDoc._id t <> UserDoc._id other) by (eapply Hcaller; eauto).
    apply filter_remove_first. intros x _ Hm.
    apply zakat_matches_id_user in Hm. destruct Hm as [_ Hu0].
    apply (owned_by_other t other); [exact Hne | now apply owned_by_true].
  - assert (Hne : UserDoc._id t <> UserDoc._id other) by (eapply Hcaller; eauto).
    apply filter_remove_first. intros x _ Hm.
    apply zakat_matches_id_user in Hm. destruct Hm as [_ Hu0].
    apply (owned_by_other t other); [exact Hne | now apply owned_by_true].
Qed.

(** X13. Users are isolated from one another: a request made for one user
    (or a registration or a login), on a collection with unique ids, changes
    no entry of a user with another id, so that the listing and the
    statistics of that other user are answered as before. *)
Theorem other_user_is_unaffected (r : Request) (w : World)
    (other_email : string) (other : UserDoc.t) :
  unique_entry_ids w ->
  current_user other_email w = Some other ->
  (forall email user,
      caller r = Some email -> current_user email w = Some user ->
      UserDoc._id user <> UserDoc._id other) ->
  List.filter (owned_by other) (zakat_collection (step r w))
  = List.filter (owned_by other) (zakat_collection w)
  /\ fst (get_zakat_entries other_email (step r w))
     = fst (get_zakat_entries other_email w)
  /\ fst (get_zakat_statistics other_email (step r w))
     = fst (get_zakat_statistics other_email w).
Proof.
  intros Hnd Hother Hcaller.
  pose proof (step_other_entries r w other Hnd Hcaller) as Hsame.
  pose proof (step_current_user r w other_email other Hother) as Hother1.
  split; [exact Hsame|]. split.
  - rewrite (get_zakat_entries_of_user _ _ _ Hother1),
      (get_zakat_entries_of_user _ _ _ Hother). simpl. now rewrite Hsame.
  - rewrite (get_zakat_statistics_of_user _ _ _ Hother1),
      (get_zakat_statistics_of_user _ _ _ Hother). now rewrite Hsame.
Qed.

(** ** Consistency of the statistics *)

(** X14. The breakdown is consistent with the totals: the counts of its
    categories add up to the number of entries, every category it lists
    counts at least one entry, and its labels are the labels of the
    entries. *)
Theorem breakdown_counts_add_up (entries : list ZakatDoc.t) :
  let s := calculate_statistics entries in
  breakdown_count (Statistics.category_breakdown s) = Statistics.total_entries s
  /\ (forall c cs,
        Statistics.category_breakdown s !! c = Some cs ->
        1 <= CategoryStats.count cs
        /\ exists e, In e entries /\ ZakatDoc.category e = c)
  /\ (forall e, In e entries ->
        exists cs,
          Statistics.category_breakdown s !! ZakatDoc.category e = Some cs).
Proof.
  intros s. split; [|split].
  - unfold s, calculate_statistics. simpl.
    rewrite breakdown_count_fold. unfold breakdown_count.
    now rewrite map_fold_empty.
  - intros c cs. unfold s. rewrite calculate_statistics_breakdown.
    destruct (existsb (has_category c) entries) eqn:Hex; [|discriminate].
    intros [= <-]. apply existsb_exists in Hex. destruct Hex as (e & Hin & Hc).
    split.
    + unfold category_summary. simpl.
      assert (Hf : In e (List.filter (has_category c) entries))
        by (apply filter_In; now split).
      destruct (List.filter (has_category c) entries); [destruct Hf|].
      simpl length. lia.
    + exists e. split; [exact Hin|]. now apply String.eqb_eq.
  - intros e Hin. unfold s. rewrite calculate_statistics_breakdown.
    assert (Hex : existsb (has_category (ZakatDoc.category e)) entries = true).
    { apply existsb_exists. exists e. split; [exact Hin|].
      unfold has_category. apply String.eqb_refl. }
    rewrite Hex. eexists. reflexivity.
Qed.

(** X15. The statistics and the listing of one caller agree: both succeed
    for a user, and the number of entries the statistics report is the
    length of the listing. *)
Theorem statistics_count_is_listing_length (email : string) (w : World)
    (user : UserDoc.t) :
  current_user email w = Some user ->
  exists entries stats,
    fst (get_zakat_entries email w) = Ok entries
    /\ fst (get_zakat_statistics email w) = Ok stats
    /\ Statistics.total_entries stats = Z.of_nat (length entries)
    /\ breakdown_count (Statistics.category_breakdown stats)
       = Z.of_nat (length entries).
Proof.
  intros Hu.
  rewrite (get_zakat_entries_of_user _ _ _ Hu),
    (get_zakat_statistics_of_user _ _ _ Hu). cbn [fst].
  do 2 eexists. split; [reflexivity|]. split; [reflexivity|].
  rewrite length_map, (Permutation_length (sort_date_desc_perm _)).
  unfold calculate_statistics.
  cbn [Statistics.total_entries Statistics.category_breakdown].
  split; [reflexivity|].
  rewrite breakdown_count_fold. unfold breakdown_count.
  rewrite map_fold_empty. lia.
Qed.

(** ** Entries and their owners *)

Lemma owners_mono (us us' : list UserDoc.t) (l : list ZakatDoc.t) :
  (forall u, In u us -> In u us') ->
  Forall (fun e => exists u, In u us /\ owned_by u e = true) l ->
  Forall (fun e => exists u, In u us' /\ owned_by u e = true) l.
Proof.
  intros Hsub Hl. eapply List.Forall_impl; [|exact Hl].
  intros e (u & Hin & Hown). exists u. split; [now apply Hsub | exact Hown].
Qed.

Lemma step_entries_have_owners (r : Request) (w : World) :
  entries_have_owners w -> entries_have_owners (step r w).
Proof.
  unfold entries_have_owners. intros Hw.
  destruct r; simpl; run_handler; case_handler; try assumption.
  - (* register *)
    apply (owners_mono (users_collection w)); [|assumption].
    intros u Hin. apply in_or_app. now left.
  - (* create *)
    apply Forall_app. split; [assumption|]. constructor; [|constructor].
    match goal with
    | H : List.find _ (users_collection w) = Some ?u |- _ =>
        exists u; apply find_some in H; destruct H as [Hin _]
    end.
    split; [exact Hin|]. unfold owned_by. simpl. apply String.eqb_refl.
  - apply Forall_update_first; [|assumption].
    intros x (u & Hin & Hown). exists u. split; [exact Hin|].
    unfold owned_by in *. now rewrite apply_set_user_id.
  - apply Forall_update_first; [|assumption].
    intros x (u & Hin & Hown). exists u. split; [exact Hin|].
    unfold owned_by in *. now rewrite apply_set_user_id.
  - now apply Forall_remove_first.
  - now apply Forall_remove_first.
Qed.

(** X16. No entry is an orphan: in every store the handlers build from the
    empty one each entry is owned by a stored user, and every request keeps
    it so. *)
Theorem entries_keep_their_owners :
  (forall rs : list Request, entries_have_owners (run rs empty_world))
  /\ (forall (r : Request) (w : World),
        entries_have_owners w -> entries_have_owners (step r w)).
Proof.
  split; [|exact step_entries_have_owners].
  intros rs.
  assert (Hrun : forall rs w, entries_have_owners w -> entries_have_owners (run rs w)).
  { clear rs. induction rs as [|r rs IH]; intros w Hw; simpl; [exact Hw|].
    apply IH. now apply step_entries_have_owners. }
  apply Hrun. constructor.
Qed.

(** ** Listing and reading *)

(** X17. Every entry of a listing can be read on its own: with unique ids
    in the collection, each in the form the driver prints, reading by the
    id of a listed entry returns that entry. *)
Theorem listed_entry_can_be_read (email : string) (w : World)
    (entries : list ZakatResponse.t) (r : ZakatResponse.t) :
  unique_entry_ids w ->
  Forall canonical (map ZakatDoc._id (zakat_collection w)) ->
  fst (get_zakat_entries email w) = Ok entries ->
  In r entries ->
  fst (get_zakat_entry (ZakatResponse.id r) email w) = Ok r.
Proof.
  intros Hnd Hcan Hok Hr.
  destruct (current_user email w) as [user|] eqn:Hu.
  2:{ exfalso. unfold current_user in Hu. revert Hok. run_handler.
      now rewrite Hu. }
  rewrite (get_zakat_entries_of_user _ _ _ Hu) in Hok. simpl in Hok.
  injection Hok as <-. apply in_map_iff in Hr. destruct Hr as (e & <- & He).
  apply (Permutation_in _ (sort_date_desc_perm _)) in He.
  apply filter_In in He. destruct He as [Hin Hown].
  rewrite List.Forall_forall in Hcan.
  assert (Hce : canonical (ZakatDoc._id e)) by (apply Hcan; now apply in_map).
  destruct (find_owned (ZakatDoc._id e) user _ e Hin eq_refl Hown)
    as (e' & Hf & Hin' & Hid' & _).
  assert (He' : e' = e) by (apply (unique_id_eq (zakat_collection w)); assumption).
  subst e'. unfold current_user in Hu.
  unfold get_zakat_entry, bind, users_find_one, zakat_find_one. simpl.
  rewrite Hu. simpl. unfold canonical in Hce. rewrite Hce. simpl.
  now rewrite Hf.
Qed.

(** ** The calls to the store *)

(** X18. Every request begins with one lookup in the user collection and
    makes at most four calls to the store; a request of a route that only
    reads calls no writing method and leaves both collections as they
    are. *)
Theorem store_calls_of_a_request (r : Request) (w : World) :
  exists ops,
    oplog (step r w) = (oplog w ++ Users_find_one :: ops)%list
    /\ (length ops <= 3)%nat
    /\ (read_only r = true ->
        forallb (fun op => negb (is_write op)) ops = true
        /\ users_collection (step r w) = users_collection w
        /\ zakat_collection (step r w) = zakat_collection w).
Proof.
  destruct r; simpl; run_handler; case_handler;
    rewrite <- ?app_assoc; simpl;
    eexists; (split; [reflexivity|]); simpl;
    (split; [lia|]); intros Hro; try discriminate Hro; repeat split.
Qed.

End Compositions.

(** * The further properties on the sample store *)

Lemma register_then_get_current_user_witness :
  fst (get_current_user (UserCreate.email Sample.carol)
         (snd (@register Sample.auth 60750 Sample.carol_id "salt3" Sample.carol
                 Sample.world)))
  = Ok (UserResponse.Build "65a000000000000000000003" "carol"
          "carol@example.org" "Carol N." 60000).
Proof.
  exact (proj1 (@register_then_get_current_user Sample.auth 60750
                  Sample.carol_id "salt3" Sample.carol Sample.world
                  Sample.carol_response eq_refl)).
Defined.

Lemma register_then_login_witness :
  fst (@login Sample.auth
         (OAuth2PasswordRequestForm.Build (UserCreate.email Sample.carol) "pw3")
         (snd (@register Sample.auth 60750 Sample.carol_id "salt3" Sample.carol
                 Sample.world)))
  = Ok (Token.Build "token:carol@example.org" "bearer").
Proof.
  exact (@register_then_login Sample.auth 60750 Sample.carol_id "salt3"
           Sample.carol Sample.world Sample.carol_response "pw3" eq_refl).
Defined.

Lemma register_twice_conflict_witness :
  exists err,
    fst (@register Sample.auth 70250 (Oid "65a000000000000000000004") "salt4"
           (UserCreate.Build "carol" "other@example.org" "x" "Another Carol")
           (snd (@register Sample.auth 60750 Sample.carol_id "salt3" Sample.carol
                   Sample.world)))
    = Raise err
    /\ Conflict err.
Proof.
  destruct (@register_twice_conflict Sample.auth 60750 Sample.carol_id "salt3"
              Sample.carol Sample.world Sample.carol_response
              70250 (Oid "65a000000000000000000004") "salt4"
              (UserCreate.Build "carol" "other@example.org" "x" "Another Carol")
              eq_refl (or_intror eq_refl)) as (err & Herr & Hconflict & _).
  exists err. split; assumption.
Defined.

Lemma users_are_unique_witness :
  current_user (UserDoc.email Sample.bilal_doc) Sample.world
  = Some Sample.bilal_doc.
Proof.
  apply (proj2 (proj2 (@users_are_unique Sample.auth Sample.python))).
  - unfold unique_emails. simpl.
    repeat (constructor; [simpl; intuition discriminate|]). constructor.
  - simpl. right. left. reflexivity.
Defined.

Lemma user_persists_witness :
  current_user "amina@example.org"
    (@run Sample.auth Sample.python
       [Req_delete_zakat_entry Sample.entry1_hex "amina@example.org";
        Req_register 60750 Sample.carol_id "salt3" Sample.carol]
       Sample.world)
  = Some Sample.amina_doc.
Proof.
  apply (proj1 (@user_persists Sample.auth Sample.python)). reflexivity.
Defined.

Lemma failed_request_changes_nothing_witness :
  users_collection
    (snd (@serve Sample.auth Sample.python (Req_get_zakat_entry "not-an-id" "amina@example.org")
            Sample.world))
  = users_collection Sample.world
  /\ zakat_collection
       (snd (@serve Sample.auth Sample.python
               (Req_get_zakat_entry "not-an-id" "amina@example.org") Sample.world))
     = zakat_collection Sample.world
  /\ In (status_code invalid_zakat_id)
       [HTTP_400_BAD_REQUEST; HTTP_401_UNAUTHORIZED; HTTP_404_NOT_FOUND].
Proof.
  apply (@failed_request_changes_nothing Sample.auth Sample.python). reflexivity.
Defined.

Lemma create_then_get_witness :
  fst (get_zakat_entry (ZakatResponse.id Sample.entry5_response)
         "amina@example.org"
         (snd (create_zakat_entry 50250 51750 Sample.entry5_id Sample.silver80
                 "amina@example.org" Sample.world)))
  = Ok (ZakatResponse.Build "65b000000000000000000005" 80 "Silver" None 25000
          2 "65a000000000000000000001").
Proof.
  apply (create_then_get 50250 51750 Sample.entry5_id Sample.silver80
           "amina@example.org" Sample.world Sample.entry5_response).
  - reflexivity.
  - simpl. intuition discriminate.
  - reflexivity.
Defined.

Lemma create_then_delete_witness :
  zakat_collection
    (snd (delete_zakat_entry (ZakatResponse.id Sample.entry5_response)
            "amina@example.org"
            (snd (create_zakat_entry 50250 51750 Sample.entry5_id Sample.silver80
                    "amina@example.org" Sample.world))))
  = zakat_collection Sample.world.
Proof.
  apply (create_then_delete 50250 51750 Sample.entry5_id Sample.silver80
           "amina@example.org" Sample.world Sample.entry5_response).
  - reflexivity.
  - simpl. intuition discriminate.
  - reflexivity.
Defined.

Lemma update_twice_witness :
  fst (update_zakat_entry Sample.entry1_hex Sample.revalue "amina@example.org"
         (snd (update_zakat_entry Sample.entry1_hex Sample.revalue
                 "amina@example.org" Sample.world)))
  = Ok (ZakatDoc.response (updated_entry Sample.revalue Sample.entry1)).
Proof.
  apply (update_twice Sample.entry1_hex Sample.revalue "amina@example.org"
           Sample.world).
  reflexivity.
Defined.

Lemma update_then_get_witness :
  fst (get_zakat_entry Sample.entry1_hex "amina@example.org"
         (snd (update_zakat_entry Sample.entry1_hex Sample.revalue
                 "amina@example.org" Sample.world)))
  = Ok (ZakatDoc.response (updated_entry Sample.revalue Sample.entry1)).
Proof.
  apply update_then_get.
  - exact sample_unique_entry_ids.
  - reflexivity.
Defined.

Lemma delete_then_gone_witness :
  fst (get_zakat_entry Sample.entry1_hex "amina@example.org"
         (snd (delete_zakat_entry Sample.entry1_hex "amina@example.org"
                 Sample.world)))
  = Raise zakat_entry_not_found.
Proof.
  apply (delete_then_gone Sample.entry1_hex "amina@example.org" Sample.world).
  - exact sample_unique_entry_ids.
  - reflexivity.
Defined.

Lemma other_user_is_unaffected_witness :
  fst (get_zakat_entries "bilal@example.org"
         (@step Sample.auth Sample.python
            (Req_delete_zakat_entry Sample.entry1_hex "amina@example.org")
            Sample.world))
  = fst (get_zakat_entries "bilal@example.org" Sample.world).
Proof.
  apply (@other_user_is_unaffected Sample.auth Sample.python
           (Req_delete_zakat_entry Sample.entry1_hex "amina@example.org")
           Sample.world "bilal@example.org" Sample.bilal_doc).
  - exact sample_unique_entry_ids.
  - reflexivity.
  - intros email user Hcaller Hu. injection Hcaller as <-.
    vm_compute in Hu. injection Hu as <-. discriminate.
Defined.

Lemma breakdown_counts_add_up_witness :
  1 <= CategoryStats.count (CategoryStats.Build 2 300%float 7.5%float)
  /\ exists e,
       In e (List.filter (owned_by Sample.amina_doc)
               (zakat_collection Sample.world))
       /\ ZakatDoc.category e = "Cash".
Proof.
  apply (proj1 (proj2 (@breakdown_counts_add_up Sample.python
                         (List.filter (owned_by Sample.amina_doc)
                            (zakat_collection Sample.world))))).
  vm_compute. reflexivity.
Defined.

Lemma statistics_count_is_listing_length_witness :
  exists entries stats,
    fst (get_zakat_entries "amina@example.org" Sample.world) = Ok entries
    /\ fst (@get_zakat_statistics Sample.python "amina@example.org" Sample.world)
       = Ok stats
    /\ Statistics.total_entries stats = Z.of_nat (length entries)
    /\ breakdown_count (Statistics.category_breakdown stats)
       = Z.of_nat (length entries).
Proof.
  apply (@statistics_count_is_listing_length Sample.python "amina@example.org"
           Sample.world Sample.amina_doc).
  reflexivity.
Defined.

Lemma sample_entries_have_owners : entries_have_owners Sample.world.
Proof.
  unfold entries_have_owners. simpl.
  repeat (constructor;
          [first [ exists Sample.amina_doc; split; [simpl; tauto | reflexivity]
                 | exists Sample.bilal_doc; split; [simpl; tauto | reflexivity] ]|]).
  constructor.
Defined.

Lemma entries_keep_their_owners_witness :
  entries_have_owners
    (@step Sample.auth Sample.python
       (Req_update_zakat_entry Sample.entry1_hex Sample.revalue "amina@example.org")
       Sample.world).
Proof.
  apply (proj2 (@entries_keep_their_owners Sample.auth Sample.python)).
  exact sample_entries_have_owners.
Defined.

Lemma listed_entry_can_be_read_witness :
  fst (get_zakat_entry (ZakatResponse.id (ZakatDoc.response Sample.entry1))
         "amina@example.org" Sample.world)
  = Ok (ZakatDoc.response Sample.entry1).
Proof.
  apply (listed_entry_can_be_read "amina@example.org" Sample.world
           (map ZakatDoc.response
              (sort_date_desc
                 (List.filter (owned_by Sample.amina_doc)
                    (zakat_collection Sample.world))))).
  - exact sample_unique_entry_ids.
  - simpl. repeat (constructor; [reflexivity|]). constructor.
  - reflexivity.
  - vm_compute. left. reflexivity.
Defined.

Lemma store_calls_of_a_request_witness :
  zakat_collection
    (@step Sample.auth Sample.python (Req_get_zakat_statistics "amina@example.org") Sample.world)
  = zakat_collection Sample.world.
Proof.
  destruct (@store_calls_of_a_request Sample.auth Sample.python
              (Req_get_zakat_statistics "amina@example.org") Sample.world)
    as (ops & _ & _ & Hro).
  exact (proj2 (proj2 (Hro eq_refl))).
Defined.
